(** * NewsQA dataset reader (datasets/newsqa/newsqa.py)

    A shallow embedding of [Newsqa._split_generators] and
    [Newsqa._generate_examples], and the properties of the reader that the
    specification of the repository states about them.

    Conventions of the embedding.
    - A Python [str] is a [string]; each character stands for one code point
      below 256.
    - A Python value produced by [json.load] (and the dictionaries the reader
      builds from them) is a [pyval].  A [dict] is a finite map: equality of
      dictionaries in Python does not depend on insertion order, and the
      reader never prints one.
    - A Python [float] is kept as the bit pattern of its IEEE-754 binary64
      representation; the reader only copies floats and writes the constant
      [0.0].
    - A raised exception is a value of [exn]; code that may raise returns a
      [result].
    - A generator is the list of the pairs it yields, in order, together with
      the exception that ended it, if any ([run]). *)

From Stdlib Require Import ZArith Ascii String List Sorted.
From stdpp Require Import base option list strings gmap fin_maps.

Local Open Scope string_scope.
Local Open Scope Z_scope.

(** ** Python values *)

(** Keys of a dictionary: a [str], or an [int] (a [bool] used as a key is
    the integer it equals). *)
Abbreviation pykey := (string + Z)%type.

#[local] Set Warnings "-register-all".

Inductive pyval : Type :=
| PNone
| PBool (b : bool)
| PInt (z : Z)
| PFloat (bits : Z)
| PStr (s : string)
| PList (l : list pyval)
| PDict (m : gmap pykey pyval).

#[local] Set Warnings "register-all".

Abbreviation pydict := (gmap pykey pyval).

(** The key [s] of a dictionary, for a string [s]. *)
Definition K (s : string) : pykey := inl s.

(** The float [0.0]: all 64 bits clear. *)
Definition float_zero : pyval := PFloat 0.

(** ** Exceptions and results *)

Inductive exn : Type :=
| KeyError (key : string)
| IndexError
| TypeError
| AttributeError
| RuntimeError
| FileNotFoundError (msg : string).

Inductive result (A : Type) : Type :=
| Ok (a : A)
| Raise (e : exn).
Arguments Ok {A} a.
Arguments Raise {A} e.

Definition bind {A B} (r : result A) (f : A -> result B) : result B :=
  match r with
  | Ok a => f a
  | Raise e => Raise e
  end.

Notation "'let!' x ':=' r 'in' k" := (bind r (fun x => k))
  (at level 10, x name, r at level 100, k at level 200).

(** [for x in xs: acc = f(acc, x)], stopping at the first exception. *)
Fixpoint for_fold {A B} (f : A -> B -> result A) (acc : A) (xs : list B)
  : result A :=
  match xs with
  | [] => Ok acc
  | x :: rest => let! acc' := f acc x in for_fold f acc' rest
  end.

(** [for x in xs: out.append(f(x))], stopping at the first exception. *)
Fixpoint for_each {A B} (f : A -> result B) (xs : list A) : result (list B) :=
  match xs with
  | [] => Ok []
  | x :: rest =>
      let! y := f x in
      let! ys := for_each f rest in
      Ok (y :: ys)
  end.

(** ** Sequences and strings of Python *)

(** [l[i]] for a list: a negative index counts from the end. *)
Definition py_index {A} (l : list A) (i : Z) : result A :=
  let n := Z.of_nat (length l) in
  let j := if i <? 0 then i + n else i in
  if (j <? 0) || (n <=? j) then Raise IndexError
  else match l !! Z.to_nat j with
       | Some x => Ok x
       | None => Raise IndexError
       end.

(** A bound of a slice, brought into [0 .. n]. *)
Definition slice_bound (n i : Z) : Z :=
  if i <? 0 then Z.max (i + n) 0 else Z.min i n.

(** [l[start:stop]]; a slice never raises. *)
Definition py_slice {A} (l : list A) (start stop : Z) : list A :=
  let n := Z.of_nat (length l) in
  let a := slice_bound n start in
  let b := slice_bound n stop in
  take (Z.to_nat (b - a)) (drop (Z.to_nat a) l).

Definition squote : ascii := "'"%char.
Definition dquote : ascii := "034"%char.
Definition backslash : ascii := "\"%char.

Definition str1 (c : ascii) : string := String c EmptyString.

Fixpoint contains_char (c : ascii) (s : string) : bool :=
  match s with
  | EmptyString => false
  | String d rest => if Ascii.eqb c d then true else contains_char c rest
  end.

Definition hex_digit (n : N) : ascii :=
  match String.get (N.to_nat n) "0123456789abcdef" with
  | Some c => c
  | None => "0"%char
  end.

(** The escape [\xHH] of a code point below 256. *)
Definition hex_escape (c : ascii) : string :=
  let n := N_of_ascii c in
  String backslash
    (String "x" (String (hex_digit (n / 16)) (str1 (hex_digit (n mod 16))))).

(** Code points 128..255 that [str.isprintable] accepts: all from 161 on
    but the soft hyphen (173); 128..159 are controls and 160 is a space
    separator. *)
Definition printable_high (n : N) : bool :=
  (N.leb 161 n) && negb (N.eqb n 173).

(** One character of [repr(s)], [quote] being the delimiter chosen. *)
Definition repr_char (quote c : ascii) : string :=
  let n := N_of_ascii c in
  if Ascii.eqb c quote || Ascii.eqb c backslash then String backslash (str1 c)
  else if N.eqb n 9 then String backslash "t"
  else if N.eqb n 10 then String backslash "n"
  else if N.eqb n 13 then String backslash "r"
  else if N.ltb n 32 || N.eqb n 127 then hex_escape c
  else if N.ltb n 127 then str1 c
  else if printable_high n then str1 c
  else hex_escape c.

Fixpoint repr_chars (quote : ascii) (s : string) : string :=
  match s with
  | EmptyString => EmptyString
  | String c rest => repr_char quote c ++ repr_chars quote rest
  end.

(** [repr(s)] for a [str]: single quotes, unless [s] holds a single quote
    and no double quote. *)
Definition py_repr (s : string) : string :=
  let quote :=
    if contains_char squote s && negb (contains_char dquote s)
    then dquote else squote in
  String quote (repr_chars quote s ++ str1 quote).

Fixpoint join_with (sep : string) (parts : list string) : string :=
  match parts with
  | [] => EmptyString
  | [p] => p
  | p :: rest => p ++ sep ++ join_with sep rest
  end.

(** [str(l)] for a list of [str]. *)
Definition py_str_list (l : list string) : string :=
  "[" ++ join_with ", " (map py_repr l) ++ "]".

(** ** Generators *)

(** What a generator did: the pairs it yielded, in order, and the exception
    that ended it ([None] when it ran to its end). *)
Record run : Type := Run {
  yielded : list (nat * pyval);
  fault : option exn
}.

(** [for id_, x in enumerate(xs): yield id_, make(x)], where [keep] is the
    guard of the [yield] and [id_] the number [enumerate] has reached. *)
Fixpoint enumerate_yield {A} (keep : A -> bool) (make : A -> result pyval)
    (id_ : nat) (xs : list A) : run :=
  match xs with
  | [] => Run [] None
  | x :: rest =>
      if keep x then
        match make x with
        | Raise e => Run [] (Some e)
        | Ok rec =>
            let r := enumerate_yield keep make (S id_) rest in
            Run ((id_, rec) :: yielded r) (fault r)
        end
      else enumerate_yield keep make (S id_) rest
  end.

(** ** Delimited input *)

(** A row as [csv.reader] gives it: the list of its fields; a blank line
    of the file is the empty list. *)
Abbreviation row := (list string).

(** [if row:] *)
Definition row_truth (r : row) : bool :=
  match r with
  | [] => false
  | _ => true
  end.

(** The dictionary yielded for a row of [combined-newsqa-data-v1.csv]
    (lines 224 to 229); the values are computed in the order written. *)
Definition combined_csv_example (r : row) : result pyval :=
  let! story_id := py_index r 0 in
  let! story_text := py_index r (-1) in
  let! question := py_index r 1 in
  let answer_char_ranges := py_str_list (py_slice r 2 (-2)) in
  Ok (PDict (<[K "story_id" := PStr story_id]>
            (<[K "story_text" := PStr story_text]>
            (<[K "question" := PStr question]>
            (<[K "answer_char_ranges" := PStr answer_char_ranges]> ∅))))).

(** The dictionary yielded for a row of a file of [split_data]
    (lines 292 to 297). *)
Definition split_example (r : row) : result pyval :=
  let! story_id := py_index r 0 in
  let! story_text := py_index r 1 in
  let! question := py_index r 2 in
  let! answer_token_ranges := py_index r 3 in
  Ok (PDict (<[K "story_id" := PStr story_id]>
            (<[K "story_text" := PStr story_text]>
            (<[K "question" := PStr question]>
            (<[K "answer_token_ranges" := PStr answer_token_ranges]> ∅))))).

(** The two branches that read rows: [_ = next(csv_reader)] drops the first
    row, and raises [StopIteration] when there is none, which a generator
    turns into [RuntimeError] (Python 3.7 and later); then the loop over
    the remaining rows. *)
Definition read_rows (make : row -> result pyval) (csv_reader : list row)
  : run :=
  match csv_reader with
  | [] => Run [] (Some RuntimeError)
  | _header :: rows => enumerate_yield row_truth make 0%nat rows
  end.

(** ** Structured input *)

(** [v[k]] for a string [k]: only a dictionary can be subscripted by a
    string. *)
Definition getitem (v : pyval) (k : string) : result pyval :=
  match v with
  | PDict m =>
      match m !! K k with
      | Some x => Ok x
      | None => Raise (KeyError k)
      end
  | _ => Raise TypeError
  end.

(** [v.keys()] *)
Definition py_keys (v : pyval) : result pydict :=
  match v with
  | PDict m => Ok m
  | _ => Raise AttributeError
  end.

(** [v.get(k, default)] *)
Definition py_get (v : pyval) (k : string) (default : pyval) : result pyval :=
  match v with
  | PDict m =>
      match m !! K k with
      | Some x => Ok x
      | None => Ok default
      end
  | _ => Raise AttributeError
  end.

(** A key of a dictionary as the value a loop over the dictionary binds. *)
Definition key_value (k : pykey) : pyval :=
  match k with
  | inl s => PStr s
  | inr z => PInt z
  end.

Fixpoint chars (s : string) : list pyval :=
  match s with
  | EmptyString => []
  | String c rest => PStr (str1 c) :: chars rest
  end.

(** The values [for x in v] binds: the elements of a list, the keys of a
    dictionary, the characters of a string; nothing else can be iterated. *)
Definition py_iter (v : pyval) : result (list pyval) :=
  match v with
  | PList l => Ok l
  | PDict m => Ok (key_value <$> (map_to_list m).*1)
  | PStr s => Ok (chars s)
  | _ => Raise TypeError
  end.

(** The integer a list accepts as an index. *)
Definition as_index (v : pyval) : result Z :=
  match v with
  | PInt z => Ok z
  | PBool b => Ok (Z.b2z b)
  | _ => Raise TypeError
  end.

(** [for key in src.keys(): acc[key] = src[key]] for a dictionary [src]. *)
Definition copy_keys (src acc : pydict) : pydict :=
  map_fold (fun key v a => <[key := v]> a) acc src.

(** [{"s": 0, "e": 0, "badQuestion": False, "noAnswer": False}] *)
Definition default_span : pydict :=
  <[K "s" := PInt 0]>
  (<[K "e" := PInt 0]>
  (<[K "badQuestion" := PBool false]>
  (<[K "noAnswer" := PBool false]> ∅))).

(** [default_validated_answer] (lines 264 to 270) *)
Definition default_validated_answer : pydict :=
  <[K "s" := PInt 0]>
  (<[K "e" := PInt 0]>
  (<[K "badQuestion" := PBool false]>
  (<[K "noAnswer" := PBool false]>
  (<[K "count" := PInt 0]> ∅)))).

(** Lines 250 and 251:
    [for key in ques["consensus"]: question["consensus"][key] = ques["consensus"][key]],
    [acc] being [question["consensus"]] before the loop.  The loop runs over
    the keys of a dictionary; over a list it binds the elements, which
    must then index the list; a string is indexed by its own characters,
    which raises. *)
Definition override_consensus (raw : pyval) (acc : pydict) : result pydict :=
  match raw with
  | PDict m => Ok (copy_keys m acc)
  | PList l =>
      for_fold (fun a key =>
                  let! i := as_index key in
                  let! v := py_index l i in
                  Ok (<[inr i := v]> a)) acc l
  | PStr EmptyString => Ok acc
  | _ => Raise TypeError
  end.

(** Lines 257 to 260: one entry of [sourcerAnswers]. *)
Definition build_sourcer_answer (sourcer_answer : pyval) : result pyval :=
  let! keys := py_keys sourcer_answer in
  Ok (PDict (copy_keys keys default_span)).

(** Lines 255 to 261: one entry of [answers]. *)
Definition build_answer (ans : pyval) : result pyval :=
  let! raw := getitem ans "sourcerAnswers" in
  let! entries := py_iter raw in
  let! sourcer_answers := for_each build_sourcer_answer entries in
  Ok (PDict (<[K "sourcerAnswers" := PList sourcer_answers]> ∅)).

(** Line 272: [{**default_validated_answer, **val_ans}]; the second
    unpacking wins, and [val_ans] must be a mapping. *)
Definition merge_validated (val_ans : pyval) : result pyval :=
  match val_ans with
  | PDict m => Ok (PDict (m ∪ default_validated_answer))
  | _ => Raise TypeError
  end.

(** Lines 240 to 247: [ques[k] if k in ques.keys() else 0.0]. *)
Definition flag_or_zero (ques : pyval) (k : string) : result pyval :=
  let! keys := py_keys ques in
  match keys !! K k with
  | Some _ => getitem ques k
  | None => Ok float_zero
  end.

(** Lines 239 to 273: the record built for one raw question. *)
Definition build_question (ques : pyval) : result pyval :=
  let! q := getitem ques "q" in
  let! is_answer_absent := flag_or_zero ques "isAnswerAbsent" in
  let! is_question_bad := flag_or_zero ques "isQuestionBad" in
  let! raw_consensus := getitem ques "consensus" in
  let! consensus := override_consensus raw_consensus default_span in
  let! raw_answers := getitem ques "answers" in
  let! answer_entries := py_iter raw_answers in
  let! answers := for_each build_answer answer_entries in
  let! raw_validated := py_get ques "validatedAnswers" (PList []) in
  let! validated_entries := py_iter raw_validated in
  let! validated_answers := for_each merge_validated validated_entries in
  Ok (PDict (<[K "q" := q]>
            (<[K "isAnswerAbsent" := is_answer_absent]>
            (<[K "isQuestionBad" := is_question_bad]>
            (<[K "consensus" := PDict consensus]>
            (<[K "answers" := PList answers]>
            (<[K "validated_answers" := PList validated_answers]> ∅))))))).

(** Lines 236 to 282: the record yielded for one item of [data]. *)
Definition build_item (item : pyval) : result pyval :=
  let! raw_questions := getitem item "questions" in
  let! entries := py_iter raw_questions in
  let! questions := for_each build_question entries in
  let! story_id := getitem item "storyId" in
  let! text := getitem item "text" in
  let! type := getitem item "type" in
  Ok (PDict (<[K "storyId" := story_id]>
            (<[K "text" := text]>
            (<[K "type" := type]>
            (<[K "questions" := PList questions]> ∅))))).

(** The branch of [combined-json] (lines 232 to 282), [d] being what
    [json.load] returned. *)
Definition read_document (d : pyval) : run :=
  match (let! data := getitem d "data" in py_iter data) with
  | Raise e => Run [] (Some e)
  | Ok items => enumerate_yield (fun _ => true) build_item 0%nat items
  end.

(** ** [_generate_examples] *)

(** [csv_reader] is the sequence of rows [csv.reader] reads from the file
    at [filepath] and [document] the value [json.load] reads from it; a
    branch uses the one it asks for. *)
Definition _generate_examples (config_name : string)
    (csv_reader : list row) (document : pyval) : run :=
  if String.eqb config_name "combined-csv" then
    read_rows combined_csv_example csv_reader
  else if String.eqb config_name "combined-json" then
    read_document document
  else
    read_rows split_example csv_reader.

(** ** [_generate_examples] from [open] on *)

(** What iterating [csv.reader] over the opened file gives: the rows it
    delivers, in order, and the exception it raises when asked for the row
    after them (a decoding error of the file, [csv.Error]), if any. *)
Record reading : Type := Reading {
  rows_given : list row;
  reader_fault : option exn
}.

(** The loop of lines 222 and 290 over a reader that may raise: the rows
    delivered are enumerated as in [enumerate_yield], and asking for the
    row after the last one ends the loop, with the exception of the reader
    when it raises one. *)
Fixpoint enumerate_reading (make : row -> result pyval) (id_ : nat)
    (rows : list row) (ending : option exn) : run :=
  match rows with
  | [] => Run [] ending
  | r :: rest =>
      if row_truth r then
        match make r with
        | Raise e => Run [] (Some e)
        | Ok rec =>
            let out := enumerate_reading make (S id_) rest ending in
            Run ((id_, rec) :: yielded out) (fault out)
        end
      else enumerate_reading make (S id_) rest ending
  end.

(** A branch that reads rows, from [open(filepath)] on (lines 217 to 229
    and 284 to 297): [opened] is the exception [open] raised, or what the
    reader gives.  [next(csv_reader)] raises the exception of the reader
    when the reader raises on its first row, and [StopIteration], which
    ends the generator with [RuntimeError], when there is no row. *)
Definition read_file (make : row -> result pyval) (opened : result reading)
  : run :=
  match opened with
  | Raise e => Run [] (Some e)
  | Ok reader =>
      match rows_given reader with
      | [] =>
          match reader_fault reader with
          | Some e => Run [] (Some e)
          | None => Run [] (Some RuntimeError)
          end
      | _header :: rows =>
          enumerate_reading make 0%nat rows (reader_fault reader)
      end
  end.

(** [_generate_examples] with the file: [opened] is what [open] and
    [csv.reader] give for [filepath], [loaded] what [open] and [json.load]
    give for it (the value read, or the exception raised).
    [_generate_examples] above is the case of a file that opens and is read
    to its end without an exception. *)
Definition generate_examples_from_file (config_name : string)
    (opened : result reading) (loaded : result pyval) : run :=
  if String.eqb config_name "combined-csv" then
    read_file combined_csv_example opened
  else if String.eqb config_name "combined-json" then
    match loaded with
    | Raise e => Run [] (Some e)
    | Ok document => read_document document
    end
  else
    read_file split_example opened.

(** ** [_split_generators] *)

(** [datasets.Split.TRAIN], [TEST] and [VALIDATION]. *)
Inductive Split : Type := TRAIN | TEST | VALIDATION.

(** [datasets.SplitGenerator(name=..., gen_kwargs={"filepath": ..., "split": ...})] *)
Record SplitGenerator : Type := {
  name : Split;
  filepath : string;
  split : string
}.

(** What the function asks of [os.path] that depends on the machine: the
    home directory, the working directory and the disk. *)
Record os_path : Type := {
  expanduser : string -> string;
  abspath : string -> string;
  path_exists : string -> bool
}.

Definition sep : ascii := "/"%char.

Fixpoint ends_with (c : ascii) (s : string) : bool :=
  match s with
  | EmptyString => false
  | String d EmptyString => Ascii.eqb c d
  | String _ rest => ends_with c rest
  end.

Definition starts_with (c : ascii) (s : string) : bool :=
  match s with
  | EmptyString => false
  | String d _ => Ascii.eqb c d
  end.

(** [os.path.join(a, b)] of [posixpath]. *)
Definition path_join (a b : string) : string :=
  if starts_with sep b then b
  else if String.eqb a EmptyString || ends_with sep a then a ++ b
  else a ++ str1 sep ++ b.

Definition newline : string := str1 "010"%char.
Definition quoted (s : string) : string := str1 dquote ++ s ++ str1 dquote.

(** The property [manual_download_instructions]: the text of lines 84 to
    88 with its common indentation removed. *)
Definition manual_download_instructions : string :=
  "Due to legal restrictions with the CNN data and data extraction. The data has to be downloaded from several sources and compiled as per the instructions by Authors."
  ++ newline ++
  "Upon obtaining the resulting data folders, it can be loaded easily using the datasets API."
  ++ newline ++
  "Please refer to (https://github.com/Maluuba/newsqa) to download data from Microsoft Reseach site (https://msropendata.com/datasets/939b1042-6402-4697-9c15-7a28de7e1321) and a CNN datasource (https://cs.nyu.edu/~kcho/DMQA/) and run the scripts present here (https://github.com/Maluuba/newsqa)."
  ++ newline ++
  "This will generate a folder named " ++ quoted "split-data"
  ++ " and a file named " ++ quoted "combined-newsqa-data-v1.csv" ++ "."
  ++ newline ++
  "Copy the above folder and the file to a directory where you want to store them locally.".

(** The message of the [FileNotFoundError] of lines 166 to 168. *)
Definition missing_folder_message (path_to_manual_folder : string) : string :=
  path_to_manual_folder
  ++ " does not exist. Make sure you insert a manual dir via `datasets.load_dataset('newsqa', data_dir=...)` that includes files from the Manual download instructions: "
  ++ manual_download_instructions.

(** What a call did: the paths whose presence on disk it asked for, in
    order, and what it returned or raised. *)
Record resolved : Type := Resolved {
  probed : list string;
  outcome : result (list SplitGenerator)
}.

Definition _split_generators (os : os_path) (config_name manual_dir : string)
  : resolved :=
  let path_to_manual_folder := abspath os (expanduser os manual_dir) in
  if negb (path_exists os path_to_manual_folder) then
    Resolved [path_to_manual_folder]
      (Raise (FileNotFoundError (missing_folder_message path_to_manual_folder)))
  else
    Resolved [path_to_manual_folder]
      (Ok
        (if String.eqb config_name "combined-csv" then
           [ {| name := TRAIN;
                filepath := path_join path_to_manual_folder "combined-newsqa-data-v1.csv";
                split := "combined" |} ]
         else if String.eqb config_name "combined-json" then
           [ {| name := TRAIN;
                filepath := path_join path_to_manual_folder "combined-newsqa-data-v1.json";
                split := "combined" |} ]
         else
           let split_files := path_join path_to_manual_folder "split_data" in
           [ {| name := TRAIN;
                filepath := path_join split_files "train.csv";
                split := "train" |};
             {| name := TEST;
                filepath := path_join split_files "test.csv";
                split := "test" |};
             {| name := VALIDATION;
                filepath := path_join split_files "dev.csv";
                split := "dev" |} ])).

(** The files a caller that reads every partition it was given opens. *)
Definition partition_paths (r : resolved) : list string :=
  match outcome r with
  | Ok generators => map filepath generators
  | Raise _ => []
  end.

(** ** [_info] *)

(** A feature of a schema: [datasets.Value(dtype)],
    [datasets.features.Sequence] of a dictionary of features, or a plain
    dictionary of features. *)
#[local] Set Warnings "-register-all".

Inductive feature : Type :=
| Value (dtype : string)
| Sequence (fields : list (string * feature))
| Nested (fields : list (string * feature)).

#[local] Set Warnings "register-all".

(** The [features] that [_info] declares (lines 92 to 151), the fields of a
    dictionary in the order written. *)
Definition info_features (config_name : string) : list (string * feature) :=
  if String.eqb config_name "combined-csv" then
    [ ("story_id", Value "string");
      ("story_text", Value "string");
      ("question", Value "string");
      ("answer_char_ranges", Value "string") ]
  else if String.eqb config_name "combined-json" then
    [ ("storyId", Value "string");
      ("text", Value "string");
      ("type", Value "string");
      ("questions", Sequence
         [ ("q", Value "string");
           ("isAnswerAbsent", Value "int32");
           ("isQuestionBad", Value "int32");
           ("consensus", Nested
              [ ("s", Value "int32");
                ("e", Value "int32");
                ("badQuestion", Value "bool");
                ("noAnswer", Value "bool") ]);
           ("answers", Sequence
              [ ("sourcerAnswers", Sequence
                   [ ("s", Value "int32");
                     ("e", Value "int32");
                     ("badQuestion", Value "bool");
                     ("noAnswer", Value "bool") ]) ]);
           ("validated_answers", Sequence
              [ ("s", Value "int32");
                ("e", Value "int32");
                ("badQuestion", Value "bool");
                ("noAnswer", Value "bool");
                ("count", Value "int32") ]) ]) ]
  else
    [ ("story_id", Value "string");
      ("story_text", Value "string");
      ("question", Value "string");
      ("answer_token_ranges", Value "string") ].

(** ** Vocabulary of the statements *)

(** The number of elements of [xs] that the guard of the loop skips. *)
Fixpoint skipped {A} (keep : A -> bool) (xs : list A) : nat :=
  match xs with
  | [] => 0%nat
  | x :: rest => ((if keep x then 0 else 1) + skipped keep rest)%nat
  end.

(** The number of blank rows among [rows]. *)
Definition blank_rows (rows : list row) : nat := skipped row_truth rows.

(** The function that builds the dictionary of a row under a configuration
    that reads rows. *)
Definition row_example (config_name : string) : row -> result pyval :=
  if String.eqb config_name "combined-csv" then combined_csv_example
  else split_example.

(** The least number of columns with which every fixed position a
    configuration reads exists: positions 0, 1 and the last for
    [combined-csv], positions 0 to 3 for the files of [split_data]. *)
Definition columns_needed (config_name : string) : nat :=
  if String.eqb config_name "combined-csv" then 2%nat else 4%nat.



(** The keys a dictionary of features names. *)
Definition field_names (fields : list (string * feature)) : gset pykey :=
  list_to_set (map (fun f => K (fst f)) fields).

(** The fields below the field [name]: those of its sequence or of its
    dictionary. *)
Fixpoint subfields (name : string) (fields : list (string * feature))
  : list (string * feature) :=
  match fields with
  | [] => []
  | (n, f) :: rest =>
      if String.eqb n name then
        match f with
        | Value _ => []
        | Sequence inner => inner
        | Nested inner => inner
        end
      else subfields name rest
  end.

(** A yielded pair with its id moved by [k]. *)
Definition shift_id (k : nat) (p : nat * pyval) : nat * pyval :=
  ((k + fst p)%nat, snd p).

(** The first [n] columns of every row. *)
Definition keep_columns (n : nat) (rows : list row) : list row :=
  map (take n) rows.

(** The rows that are not blank. *)
Definition without_blank_rows (rows : list row) : list row :=
  List.filter row_truth rows.

(** The value of a digit of [hex_escape]. *)
Definition unhex (c : ascii) : option N :=
  let n := N_of_ascii c in
  if N.leb 48 n && N.leb n 57 then Some (n - 48)%N
  else if N.leb 97 n && N.leb n 102 then Some (n - 87)%N
  else None.

(** Reading back the characters that [repr_chars] wrote, up to the closing
    [quote]: the string they stand for and what follows the quote. *)
Fixpoint unrepr_chars (quote : ascii) (s : string) : option (string * string) :=
  match s with
  | EmptyString => None
  | String c rest =>
      if Ascii.eqb c quote then Some (EmptyString, rest)
      else if Ascii.eqb c backslash then
        match rest with
        | EmptyString => None
        | String d rest' =>
            if Ascii.eqb d "x" then
              match rest' with
              | String h1 (String h2 rest'') =>
                  match unhex h1, unhex h2, unrepr_chars quote rest'' with
                  | Some a, Some b, Some (body, after) =>
                      Some (String (ascii_of_N (16 * a + b)) body, after)
                  | _, _, _ => None
                  end
              | _ => None
              end
            else
              let ch :=
                if Ascii.eqb d "t" then "009"%char
                else if Ascii.eqb d "n" then "010"%char
                else if Ascii.eqb d "r" then "013"%char
                else d in
              match unrepr_chars quote rest' with
              | Some (body, after) => Some (String ch body, after)
              | None => None
              end
        end
      else
        match unrepr_chars quote rest with
        | Some (body, after) => Some (String c body, after)
        | None => None
        end
  end.

(** The text of a list after its opening bracket. *)
Definition list_body (l : list string) : string :=
  join_with ", " (map py_repr l) ++ "]".

(** * Properties *)

Local Open Scope nat_scope.

(** ** The loop that enumerates and yields *)

Section EnumerateYield.
Context {A : Type} (keep : A -> bool) (make : A -> result pyval).

Lemma enumerate_yield_ids_sorted xs : forall start,
  Forall (fun id => start <= id) (yielded (enumerate_yield keep make start xs)).*1
  /\ StronglySorted lt (yielded (enumerate_yield keep make start xs)).*1.
Proof.
  induction xs as [|x rest IH]; intros start; simpl.
  - split; constructor.
  - destruct (IH (S start)) as [Hge Hsorted].
    destruct (keep x).
    + destruct (make x) as [rec|e]; simpl.
      * split.
        -- constructor; [lia|]. eapply Forall_impl; [exact Hge|]. simpl. lia.
        -- constructor; [exact Hsorted|].
           eapply Forall_impl; [exact Hge|]. simpl. lia.
      * split; constructor.
    + split; [|exact Hsorted].
      eapply Forall_impl; [exact Hge|]. simpl. lia.
Qed.

Lemma enumerate_yield_lookup xs : forall start n id rec,
  yielded (enumerate_yield keep make start xs) !! n = Some (id, rec) ->
  exists x,
    start <= id /\ xs !! (id - start) = Some x /\ keep x = true
    /\ make x = Ok rec
    /\ id - start = n + skipped keep (take (id - start) xs).
Proof.
  induction xs as [|x rest IH]; intros start n id rec; simpl.
  - intros H. discriminate H.
  - destruct (keep x) eqn:Hkeep.
    + destruct (make x) as [rec0|e] eqn:Hmake; simpl; [|intros H; discriminate H].
      destruct n as [|n]; simpl.
      * intros [= <- <-]. exists x.
        replace (start - start) with 0 by lia. simpl. auto.
      * intros H. destruct (IH _ _ _ _ H) as (y & Hle & Hy & Hk & Hm & Hpos).
        exists y. replace (id - start) with (S (id - S start)) by lia.
        simpl. rewrite Hkeep. simpl. repeat split; auto; lia.
    + intros H. destruct (IH _ _ _ _ H) as (y & Hle & Hy & Hk & Hm & Hpos).
      exists y. replace (id - start) with (S (id - S start)) by lia.
      simpl. rewrite Hkeep. simpl. repeat split; auto; lia.
Qed.

(** The loop stops at the first element whose record cannot be built:
    what was yielded is what the elements before it yield. *)
Lemma enumerate_yield_stops pre x post e : forall start,
  keep x = true -> make x = Raise e ->
  yielded (enumerate_yield keep make start (pre ++ x :: post))
    = yielded (enumerate_yield keep make start pre)
  /\ fault (enumerate_yield keep make start (pre ++ x :: post))
    = match fault (enumerate_yield keep make start pre) with
      | Some e' => Some e'
      | None => Some e
      end.
Proof.
  induction pre as [|y pre IH]; intros start Hkeep Hmake; simpl.
  - rewrite Hkeep, Hmake. auto.
  - destruct (IH (S start) Hkeep Hmake) as [Hy Hf].
    destruct (keep y); [|auto].
    destruct (make y); simpl; [|auto].
    rewrite Hy, Hf. auto.
Qed.

Lemma enumerate_yield_fault xs : forall start e,
  fault (enumerate_yield keep make start xs) = Some e ->
  exists x, x ∈ xs /\ keep x = true /\ make x = Raise e.
Proof.
  induction xs as [|x rest IH]; intros start e; simpl; [discriminate|].
  destruct (keep x) eqn:Hkeep.
  - destruct (make x) as [rec|e'] eqn:Hmake; simpl.
    + intros H. destruct (IH _ _ H) as (y & Hin & Hy).
      exists y. split; [by apply list_elem_of_further | exact Hy].
    + intros [= ->]. exists x. split; [by apply list_elem_of_here | auto].
  - intros H. destruct (IH _ _ H) as (y & Hin & Hy).
    exists y. split; [by apply list_elem_of_further | exact Hy].
Qed.

Lemma enumerate_yield_bound xs : forall start id rec,
  (id, rec) ∈ yielded (enumerate_yield keep make start xs) ->
  start <= id < start + length xs.
Proof.
  intros start id rec Hin.
  apply list_elem_of_lookup in Hin as [n Hn].
  destruct (enumerate_yield_lookup _ _ _ _ _ Hn) as (x & Hle & Hx & _).
  apply lookup_lt_Some in Hx. lia.
Qed.
End EnumerateYield.

(** ** Subscripts and slices *)

Lemma py_index_nat {A} (l : list A) (i : nat) :
  py_index l (Z.of_nat i)
  = match l !! i with
    | Some x => Ok x
    | None => Raise IndexError
    end.
Proof.
  unfold py_index.
  destruct (Z.ltb_spec (Z.of_nat i) 0) as [Hneg|_]; [lia|].
  rewrite Nat2Z.id.
  destruct (l !! i) eqn:Hl.
  - apply lookup_lt_Some in Hl.
    destruct (Z.ltb_spec (Z.of_nat i) 0); [lia|].
    destruct (Z.leb_spec (Z.of_nat (length l)) (Z.of_nat i)); [lia|]. reflexivity.
  - destruct (_ || _); reflexivity.
Qed.

Lemma py_index_raise {A} (l : list A) (i : Z) (e : exn) :
  py_index l i = Raise e -> e = IndexError.
Proof.
  unfold py_index. destruct (_ || _); [congruence|].
  destruct (l !! _); congruence.
Qed.

Lemma py_index_last {A} (l : list A) :
  l <> [] -> exists x, py_index l (-1) = Ok x /\ last l = Some x.
Proof.
  intros Hne. destruct (last l) as [x|] eqn:Hlast.
  - exists x. split; [|reflexivity].
    rewrite last_lookup in Hlast.
    assert (0 < length l) by (destruct l; [done | simpl; lia]).
    unfold py_index. simpl.
    destruct (Z.ltb_spec (-1 + Z.of_nat (length l)) 0); [lia|].
    destruct (Z.leb_spec (Z.of_nat (length l)) (-1 + Z.of_nat (length l))); [lia|].
    simpl. replace (Z.to_nat (-1 + Z.of_nat (length l))) with (pred (length l)) by lia.
    rewrite Hlast. reflexivity.
  - apply last_None in Hlast. contradiction.
Qed.

(** [l[2:-2]] holds the elements after the first two and before the last
    two. *)
Lemma py_slice_2_m2 {A} (l : list A) :
  py_slice l 2 (-2) = take (length l - 4) (drop 2 l).
Proof.
  unfold py_slice, slice_bound.
  change (-2 <? 0)%Z with true. change (2 <? 0)%Z with false. cbv iota.
  destruct (Nat.lt_ge_cases (length l) 4) as [Hshort|Hlong].
  - replace (length l - 4) with 0 by lia.
    replace (Z.to_nat (_ - _)) with 0 by lia. reflexivity.
  - replace (Z.to_nat (Z.min 2 (Z.of_nat (length l)))) with 2 by lia.
    f_equal. lia.
Qed.

(** ** The records of the rows *)

Lemma combined_csv_example_raise r e :
  combined_csv_example r = Raise e -> e = IndexError.
Proof.
  unfold combined_csv_example, bind.
  destruct (py_index r 0) eqn:H0; [|intros [= <-]; eauto using py_index_raise].
  destruct (py_index r (-1)) eqn:H1; [|intros [= <-]; eauto using py_index_raise].
  destruct (py_index r 1) eqn:H2; [|intros [= <-]; eauto using py_index_raise].
  discriminate.
Qed.

Lemma split_example_raise r e :
  split_example r = Raise e -> e = IndexError.
Proof.
  unfold split_example, bind.
  destruct (py_index r 0) eqn:H0; [|intros [= <-]; eauto using py_index_raise].
  destruct (py_index r 1) eqn:H1; [|intros [= <-]; eauto using py_index_raise].
  destruct (py_index r 2) eqn:H2; [|intros [= <-]; eauto using py_index_raise].
  destruct (py_index r 3) eqn:H3; [|intros [= <-]; eauto using py_index_raise].
  discriminate.
Qed.

Lemma row_example_raise config_name r e :
  row_example config_name r = Raise e -> e = IndexError.
Proof.
  unfold row_example. destruct (String.eqb _ _);
    eauto using combined_csv_example_raise, split_example_raise.
Qed.

(** A row that is not blank and has too few columns raises. *)
Lemma row_example_short config_name r :
  r <> [] -> length r < columns_needed config_name ->
  row_example config_name r = Raise IndexError.
Proof.
  unfold row_example, columns_needed. intros Hne Hlen.
  destruct (String.eqb _ _).
  - destruct r as [|a [|b r]]; [done| |simpl in Hlen; lia]. reflexivity.
  - destruct r as [|a [|b [|c [|d r]]]]; [done| | | |simpl in Hlen; lia];
      reflexivity.
Qed.

(** A row with enough columns never raises. *)
Lemma row_example_enough config_name r :
  columns_needed config_name <= length r ->
  exists rec, row_example config_name r = Ok rec.
Proof.
  unfold row_example, columns_needed. intros Hlen.
  destruct (String.eqb _ _).
  - destruct r as [|a [|b r]]; simpl in Hlen; [lia|lia|].
    destruct (py_index_last (a :: b :: r)) as (x & Hx & _); [done|].
    unfold combined_csv_example. rewrite (py_index_nat _ 0), Hx.
    rewrite (py_index_nat _ 1). simpl. eauto.
  - destruct r as [|a [|b [|c [|d r]]]]; simpl in Hlen; try lia.
    unfold split_example. rewrite (py_index_nat _ 0), (py_index_nat _ 1),
      (py_index_nat _ 2), (py_index_nat _ 3). simpl. eauto.
Qed.

Lemma row_truth_true r : row_truth r = true <-> r <> [].
Proof. destruct r; simpl; split; intros; congruence. Qed.

Lemma generate_examples_rows config_name csv_reader document :
  config_name <> "combined-json" ->
  _generate_examples config_name csv_reader document
  = read_rows (row_example config_name) csv_reader.
Proof.
  intros Hne. unfold _generate_examples, row_example.
  destruct (String.eqb config_name "combined-csv"); [reflexivity|].
  apply String.eqb_neq in Hne. rewrite Hne. reflexivity.
Qed.

Lemma combined_csv_example_ok r rec :
  combined_csv_example r = Ok rec ->
  exists story_id question story_text,
    r !! 0 = Some story_id /\ r !! 1 = Some question
    /\ last r = Some story_text
    /\ rec = PDict (<[K "story_id" := PStr story_id]>
                   (<[K "story_text" := PStr story_text]>
                   (<[K "question" := PStr question]>
                   (<[K "answer_char_ranges" :=
                        PStr (py_str_list (take (length r - 4) (drop 2 r)))]>
                      ∅)))).
Proof.
  destruct r as [|a [|b r]]; [discriminate|discriminate|].
  destruct (py_index_last (a :: b :: r)) as (x & Hx & Hlast); [done|].
  unfold combined_csv_example.
  rewrite (py_index_nat _ 0), Hx, (py_index_nat _ 1), py_slice_2_m2.
  simpl. intros [= <-]. exists a, b, x. auto.
Qed.

(** ** Ids of the records read from rows *)

Lemma read_rows_lookup make header rows n id rec :
  yielded (read_rows make (header :: rows)) !! n = Some (id, rec) ->
  exists row,
    rows !! id = Some row /\ row <> [] /\ make row = Ok rec
    /\ id = n + blank_rows (take id rows).
Proof.
  simpl. intros Hn.
  destruct (enumerate_yield_lookup _ _ _ _ _ _ _ Hn)
    as (row & _ & Hrow & Hkeep & Hmake & Hpos).
  rewrite Nat.sub_0_r in Hrow, Hpos.
  exists row. rewrite <- row_truth_true. auto.
Qed.

(** C1 (amended): under a configuration that reads rows, the ids of the
    yielded records increase strictly, and the id of a record is the
    zero-based position of its row among all the rows that follow the
    header, blank rows counted: the record yielded at position [n] carries
    the id [n] plus the number of blank rows before its row.  A blank row
    yields nothing but does consume an id. *)
Theorem ids_are_row_positions config_name header rows document :
  config_name <> "combined-json" ->
  let r := _generate_examples config_name (header :: rows) document in
  StronglySorted lt (yielded r).*1
  /\ forall n id rec,
       yielded r !! n = Some (id, rec) ->
       exists row,
         rows !! id = Some row /\ row <> []
         /\ row_example config_name row = Ok rec
         /\ id = n + blank_rows (take id rows).
Proof.
  intros Hcfg. rewrite generate_examples_rows by exact Hcfg. simpl. split.
  - apply enumerate_yield_ids_sorted.
  - intros n id rec Hn. exact (read_rows_lookup _ header _ _ _ _ Hn).
Qed.

Lemma ids_are_row_positions_witness :
  "split" <> "combined-json"
  /\ let r := _generate_examples "split"
                [ ["story_id"; "story_text"; "question"; "answer_token_ranges"];
                  [];
                  ["A1"; "story text"; "question text"; "0:3,5:7"] ] PNone in
     StronglySorted lt (yielded r).*1
     /\ forall n id rec,
          yielded r !! n = Some (id, rec) ->
          exists row,
            [ []; ["A1"; "story text"; "question text"; "0:3,5:7"] ] !! id
              = Some row
            /\ row <> []
            /\ row_example "split" row = Ok rec
            /\ id = n + blank_rows
                          (take id [ []; ["A1"; "story text"; "question text";
                                          "0:3,5:7"] ]).
Proof.
  split; [discriminate|].
  apply (ids_are_row_positions "split"). discriminate.
Defined.

(** C1, as stated, fails: after a blank row the first record yielded
    carries the id 1. *)
Lemma blank_row_consumes_an_id :
  let r := _generate_examples "combined-csv"
             [ ["id"; "q"; "s1"; "s2"; "text"];
               [];
               ["A1"; "what?"; "0:3"; EmptyString; "story."] ] PNone in
  fault r = None
  /\ (yielded r).*1 = [1]
  /\ (yielded r).*1 <> seq 0 (length (yielded r)).
Proof.
  vm_compute. split; [reflexivity|]. split; [reflexivity|discriminate].
Qed.

(** ** The record of a row of the combined file *)

(** C2 (amended): the file with header [id, q, s1, s2, text] and the one
    row [A1, what?, 0:3, (empty), story.] yields exactly one record, at id
    0, whose [answer_char_ranges] is ['0:3']; in general
    [answer_char_ranges] is [str] of the list of the columns after the
    first two and before the last two. *)
Theorem combined_csv_record :
  (forall document,
     _generate_examples "combined-csv"
       [ ["id"; "q"; "s1"; "s2"; "text"];
         ["A1"; "what?"; "0:3"; EmptyString; "story."] ] document
     = Run [ (0, PDict (<[K "story_id" := PStr "A1"]>
                       (<[K "story_text" := PStr "story."]>
                       (<[K "question" := PStr "what?"]>
                       (<[K "answer_char_ranges" := PStr "['0:3']"]> ∅))))) ]
           None)
  /\ (forall header rows document n id rec,
        yielded (_generate_examples "combined-csv" (header :: rows) document)
          !! n = Some (id, rec) ->
        exists row story_id question story_text,
          rows !! id = Some row
          /\ row !! 0 = Some story_id /\ row !! 1 = Some question
          /\ last row = Some story_text
          /\ rec = PDict
               (<[K "story_id" := PStr story_id]>
               (<[K "story_text" := PStr story_text]>
               (<[K "question" := PStr question]>
               (<[K "answer_char_ranges" :=
                    PStr (py_str_list (take (length row - 4) (drop 2 row)))]>
                  ∅))))).
Proof.
  split.
  - intros document. vm_compute. reflexivity.
  - intros header rows document n id rec Hn.
    change (_generate_examples "combined-csv" (header :: rows) document)
      with (read_rows combined_csv_example (header :: rows)) in Hn.
    destruct (read_rows_lookup _ _ _ _ _ _ Hn) as (row & Hrow & _ & Hmake & _).
    destruct (combined_csv_example_ok _ _ Hmake)
      as (a & b & c & H0 & H1 & Hlast & ->).
    exists row, a, b, c. auto.
Qed.

Lemma combined_csv_record_witness :
  exists row story_id question story_text,
    [ ["A1"; "what?"; "0:3"; "1:2"; "1"; "0"; "story."] ] !! 0 = Some row
    /\ row !! 0 = Some story_id /\ row !! 1 = Some question
    /\ last row = Some story_text
    /\ PDict (<[K "story_id" := PStr "A1"]>
             (<[K "story_text" := PStr "story."]>
             (<[K "question" := PStr "what?"]>
             (<[K "answer_char_ranges" := PStr "['0:3', '1:2', '1']"]> ∅))))
       = PDict
           (<[K "story_id" := PStr story_id]>
           (<[K "story_text" := PStr story_text]>
           (<[K "question" := PStr question]>
           (<[K "answer_char_ranges" :=
                PStr (py_str_list (take (length row - 4) (drop 2 row)))]>
              ∅)))).
Proof.
  apply (proj2 combined_csv_record
           ["id"; "q"; "s1"; "s2"; "a"; "b"; "text"]
           [ ["A1"; "what?"; "0:3"; "1:2"; "1"; "0"; "story."] ]
           PNone 0 0).
  vm_compute. reflexivity.
Defined.

(** C2, as stated, fails: on the row of the claim [answer_char_ranges] is
    ['0:3'], without the empty column that precedes the text. *)
Lemma combined_row_leaves_out_last_two_columns :
  let r := _generate_examples "combined-csv"
             [ ["id"; "q"; "s1"; "s2"; "text"];
               ["A1"; "what?"; "0:3"; EmptyString; "story."] ] PNone in
  exists rec,
    yielded r = [(0, rec)]
    /\ getitem rec "answer_char_ranges" = Ok (PStr "['0:3']")
    /\ getitem rec "answer_char_ranges" <> Ok (PStr "['0:3', '']").
Proof.
  eexists. split; [vm_compute; reflexivity|].
  split; [vm_compute; reflexivity | vm_compute; discriminate].
Qed.

(** ** Rows with too few columns *)

(** C3: under a configuration that reads rows, a row of data (a row after
    the header that is not blank; a blank row is the empty-row case, which
    is skipped) with fewer columns than the fixed positions need (fewer
    than 2 for [combined-csv], which reads positions 0, 1 and the last;
    fewer than 4 for the files of [split_data], which read positions 0 to
    3) ends the read with [IndexError] at that row: what is yielded is what
    the rows before it yield, the row is not skipped and no id reaches its
    position. *)
Theorem short_row_ends_the_read config_name header pre row post document :
  config_name <> "combined-json" ->
  row <> [] ->
  length row < columns_needed config_name ->
  let r := _generate_examples config_name (header :: pre ++ row :: post)
             document in
  fault r = Some IndexError
  /\ yielded r
     = yielded (_generate_examples config_name (header :: pre) document)
  /\ forall id rec, (id, rec) ∈ yielded r -> id < length pre.
Proof.
  intros Hcfg Hne Hlen. rewrite !generate_examples_rows by exact Hcfg. simpl.
  destruct (enumerate_yield_stops row_truth (row_example config_name)
              pre row post IndexError 0) as [Hy Hf].
  { by apply row_truth_true. }
  { by apply row_example_short. }
  split; [|split].
  - rewrite Hf.
    destruct (fault (enumerate_yield _ _ 0 pre)) as [e|] eqn:He; [|reflexivity].
    apply enumerate_yield_fault in He as (x & _ & _ & Hx).
    apply row_example_raise in Hx. by subst.
  - exact Hy.
  - intros id rec Hin. rewrite Hy in Hin.
    apply enumerate_yield_bound in Hin. lia.
Qed.

Lemma short_row_ends_the_read_witness :
  "split" <> "combined-json"
  /\ ["A2"; "story text"] <> []
  /\ length ["A2"; "story text"] < columns_needed "split"
  /\ let r := _generate_examples "split"
                (["story_id"; "story_text"; "question"; "answer_token_ranges"]
                 :: [ ["A1"; "story text"; "question text"; "0:3,5:7"] ]
                 ++ ["A2"; "story text"]
                 :: [ ["A3"; "story text"; "question text"; "1:2"] ])
                PNone in
     fault r = Some IndexError
     /\ yielded r
        = yielded (_generate_examples "split"
                     (["story_id"; "story_text"; "question";
                       "answer_token_ranges"]
                      :: [ ["A1"; "story text"; "question text"; "0:3,5:7"] ])
                     PNone)
     /\ forall id rec,
          (id, rec) ∈ yielded r ->
          id < length [ ["A1"; "story text"; "question text"; "0:3,5:7"] ].
Proof.
  split; [discriminate|]. split; [discriminate|].
  split; [vm_compute; lia|].
  apply (short_row_ends_the_read "split"); [discriminate|discriminate|].
  vm_compute; lia.
Defined.

(** ** Results and loops *)

Lemma bind_Ok {A B} (r : result A) (f : A -> result B) (b : B) :
  bind r f = Ok b -> exists a, r = Ok a /\ f a = Ok b.
Proof. destruct r as [a|e]; simpl; [eauto | discriminate]. Qed.

Tactic Notation "bind_inv" hyp(H) "as" ident(a) ident(Ha) :=
  apply bind_Ok in H as (a & Ha & H).

Lemma for_each_lookup {A B} (f : A -> result B) xs : forall ys i x,
  for_each f xs = Ok ys -> xs !! i = Some x ->
  exists y, ys !! i = Some y /\ f x = Ok y.
Proof.
  induction xs as [|x0 xs IH]; intros ys i x Hall Hi; [discriminate Hi|].
  simpl in Hall. bind_inv Hall as y Hy. bind_inv Hall as ys' Hys.
  injection Hall as <-.
  destruct i as [|i]; simpl in *.
  - injection Hi as <-. eauto.
  - eauto.
Qed.

Lemma for_each_Forall2 {A B} (f : A -> result B) xs : forall ys,
  for_each f xs = Ok ys -> Forall2 (fun x y => f x = Ok y) xs ys.
Proof.
  induction xs as [|x0 xs IH]; intros ys Hall; simpl in Hall.
  - injection Hall as <-. constructor.
  - bind_inv Hall as y Hy. bind_inv Hall as ys' Hys. injection Hall as <-.
    constructor; auto.
Qed.

Lemma for_each_raise {A B} (f : A -> result B) xs x e :
  x ∈ xs -> f x = Raise e -> exists e', for_each f xs = Raise e'.
Proof.
  induction 1 as [x xs|x y xs Hin IH]; intros Hx; simpl.
  - rewrite Hx. simpl. eauto.
  - destruct (f y); simpl; [|eauto].
    destruct (IH Hx) as [e' ->]. simpl. eauto.
Qed.

(** ** Dictionaries *)

(** Copying every key of [src] into [acc] gives [src] over [acc]: the
    keys of [src] with their values, and the other keys of [acc]. *)
Lemma copy_keys_union (src acc : pydict) : copy_keys src acc = src ∪ acc.
Proof.
  unfold copy_keys.
  apply (map_fold_weak_ind (fun r m => r = m ∪ acc)).
  - by rewrite (left_id_L ∅ (∪)).
  - intros i x m r _ ->. by rewrite insert_union_l.
Qed.

Lemma lookup_over (src acc : pydict) (k : pykey) :
  (src ∪ acc) !! k
  = match src !! k with
    | Some v => Some v
    | None => acc !! k
    end.
Proof.
  rewrite lookup_union. destruct (src !! k), (acc !! k); reflexivity.
Qed.

Lemma getitem_Ok v k x :
  getitem v k = Ok x -> exists m, v = PDict m /\ m !! K k = Some x.
Proof.
  destruct v; simpl; try discriminate.
  destruct (m !! K k) eqn:Hk; [|discriminate]. intros [= <-]. eauto.
Qed.

Lemma getitem_dict (m : pydict) k x :
  m !! K k = Some x -> getitem (PDict m) k = Ok x.
Proof. simpl. by intros ->. Qed.

Lemma flag_or_zero_dict (m : pydict) k :
  flag_or_zero (PDict m) k = Ok (default float_zero (m !! K k)).
Proof. unfold flag_or_zero. simpl. by destruct (m !! K k). Qed.

Lemma override_consensus_dict (raw acc : pydict) :
  override_consensus (PDict raw) acc = Ok (raw ∪ acc).
Proof. simpl. by rewrite copy_keys_union. Qed.

Lemma build_sourcer_answer_dict (raw : pydict) :
  build_sourcer_answer (PDict raw) = Ok (PDict (raw ∪ default_span)).
Proof. unfold build_sourcer_answer. simpl. by rewrite copy_keys_union. Qed.

(** ** The record of a question *)

(** What a question that was built is made of. *)
Lemma build_question_Ok ques question :
  build_question ques = Ok question ->
  exists qm q raw_consensus consensus raw_answers answer_entries answers
         validated_entries validated_answers,
    ques = PDict qm
    /\ qm !! K "q" = Some q
    /\ qm !! K "consensus" = Some raw_consensus
    /\ override_consensus raw_consensus default_span = Ok consensus
    /\ qm !! K "answers" = Some raw_answers
    /\ py_iter raw_answers = Ok answer_entries
    /\ for_each build_answer answer_entries = Ok answers
    /\ py_iter (default (PList []) (qm !! K "validatedAnswers"))
       = Ok validated_entries
    /\ for_each merge_validated validated_entries = Ok validated_answers
    /\ question
       = PDict (<[K "q" := q]>
               (<[K "isAnswerAbsent" :=
                    default float_zero (qm !! K "isAnswerAbsent")]>
               (<[K "isQuestionBad" :=
                    default float_zero (qm !! K "isQuestionBad")]>
               (<[K "consensus" := PDict consensus]>
               (<[K "answers" := PList answers]>
               (<[K "validated_answers" := PList validated_answers]> ∅)))))).
Proof.
  unfold build_question. intros H.
  bind_inv H as q Hq. apply getitem_Ok in Hq as (qm & -> & Hq).
  rewrite !flag_or_zero_dict in H. cbn [bind] in H.
  bind_inv H as rc Hrc. apply getitem_Ok in Hrc as (qm' & [= <-] & Hrc).
  bind_inv H as c Hc.
  bind_inv H as ra Hra. apply getitem_Ok in Hra as (qm' & [= <-] & Hra).
  bind_inv H as ae Hae. bind_inv H as answers Hanswers.
  bind_inv H as rv Hrv.
  assert (rv = default (PList []) (qm !! K "validatedAnswers")) as ->.
  { simpl in Hrv. destruct (qm !! K "validatedAnswers"); by injection Hrv. }
  bind_inv H as ve Hve. bind_inv H as va Hva. injection H as <-.
  exists qm, q, rc, c, ra, ae, answers, ve, va. auto 12.
Qed.

(** A question whose keys have the expected shapes is built. *)
Lemma build_question_built (qm raw : pydict) (q : pyval) answer_entries answers
    validated_entries validated_answers :
  qm !! K "q" = Some q ->
  qm !! K "consensus" = Some (PDict raw) ->
  qm !! K "answers" = Some (PList answer_entries) ->
  for_each build_answer answer_entries = Ok answers ->
  default (PList []) (qm !! K "validatedAnswers") = PList validated_entries ->
  for_each merge_validated validated_entries = Ok validated_answers ->
  build_question (PDict qm)
  = Ok (PDict (<[K "q" := q]>
              (<[K "isAnswerAbsent" :=
                   default float_zero (qm !! K "isAnswerAbsent")]>
              (<[K "isQuestionBad" :=
                   default float_zero (qm !! K "isQuestionBad")]>
              (<[K "consensus" := PDict (raw ∪ default_span)]>
              (<[K "answers" := PList answers]>
              (<[K "validated_answers" := PList validated_answers]> ∅))))))).
Proof.
  intros Hq Hc Ha Hanswers Hv Hvalidated. unfold build_question.
  rewrite (getitem_dict _ _ _ Hq). cbn [bind].
  rewrite !flag_or_zero_dict. cbn [bind].
  rewrite (getitem_dict _ _ _ Hc). cbn [bind].
  rewrite override_consensus_dict. cbn [bind].
  rewrite (getitem_dict _ _ _ Ha).
  cbn [bind py_iter]. rewrite Hanswers. cbn [bind].
  assert (py_get (PDict qm) "validatedAnswers" (PList [])
          = Ok (PList validated_entries)) as ->.
  { simpl. rewrite <- Hv. by destruct (qm !! K "validatedAnswers"). }
  cbn [bind py_iter]. rewrite Hvalidated. reflexivity.
Qed.

(** The least question that is built: [q], [consensus] and [answers]. *)
Lemma build_question_least (q : pyval) (raw : pydict) :
  build_question
    (PDict (<[K "q" := q]>
           (<[K "consensus" := PDict raw]>
           (<[K "answers" := PList []]> ∅))))
  = Ok (PDict (<[K "q" := q]>
              (<[K "isAnswerAbsent" := float_zero]>
              (<[K "isQuestionBad" := float_zero]>
              (<[K "consensus" := PDict (raw ∪ default_span)]>
              (<[K "answers" := PList []]>
              (<[K "validated_answers" := PList []]> ∅))))))).
Proof.
  erewrite build_question_built; try reflexivity.
Qed.

(** The records yielded from a document are those of the items of its
    [data], in order and numbered from 0. *)
Lemma read_document_lookup d n id rec :
  yielded (read_document d) !! n = Some (id, rec) ->
  exists data items item,
    getitem d "data" = Ok data /\ py_iter data = Ok items
    /\ id = n /\ items !! n = Some item /\ build_item item = Ok rec.
Proof.
  unfold read_document. destruct (getitem d "data") as [data|e] eqn:Hd;
    [|discriminate].
  cbn [bind]. destruct (py_iter data) as [items|e] eqn:Hi; [|discriminate].
  intros Hn.
  destruct (enumerate_yield_lookup _ _ _ _ _ _ _ Hn)
    as (item & _ & Hitem & _ & Hmake & Hpos).
  rewrite Nat.sub_0_r in Hitem, Hpos.
  assert (Hnone : forall xs : list pyval, skipped (fun _ => true) xs = 0)
    by (induction xs; simpl; auto).
  rewrite Hnone in Hpos. subst id. rewrite Nat.add_0_r in *.
  exists data, items, item. auto.
Qed.

(** The [questions] of a yielded record are the records built for the raw
    questions of its item, one for one. *)
Lemma build_item_questions item rec :
  build_item item = Ok rec ->
  exists raw_questions entries questions,
    getitem item "questions" = Ok raw_questions
    /\ py_iter raw_questions = Ok entries
    /\ Forall2 (fun ques question => build_question ques = Ok question)
         entries questions
    /\ getitem rec "questions" = Ok (PList questions).
Proof.
  unfold build_item. intros H.
  bind_inv H as rq Hrq. bind_inv H as entries Hentries.
  bind_inv H as questions Hquestions.
  bind_inv H as sid Hsid. bind_inv H as text Htext. bind_inv H as type Htype.
  injection H as <-.
  exists rq, entries, questions.
  repeat split; auto using for_each_Forall2.
Qed.

(** ** Defaults of the consensus *)

(** C4: the consensus of a question record is the default
    [{s: 0, e: 0, badQuestion: False, noAnswer: False}] overridden key by
    key by the raw consensus object: a key of the raw object carries its
    raw value, any other key its default.  A document whose one question
    has the raw consensus [{s: 5}] yields
    [{s: 5, e: 0, badQuestion: False, noAnswer: False}]. *)
Theorem consensus_defaults_keywise :
  (forall raw : pydict,
     exists consensus : pydict,
       override_consensus (PDict raw) default_span = Ok consensus
       /\ forall k,
            consensus !! k
            = match raw !! k with
              | Some v => Some v
              | None => default_span !! k
              end)
  /\ (forall ques (raw : pydict) question,
        getitem ques "consensus" = Ok (PDict raw) ->
        build_question ques = Ok question ->
        exists consensus : pydict,
          getitem question "consensus" = Ok (PDict consensus)
          /\ forall k,
               consensus !! k
               = match raw !! k with
                 | Some v => Some v
                 | None => default_span !! k
                 end)
  /\ (forall csv_reader,
        _generate_examples "combined-json" csv_reader
          (PDict (<[K "data" := PList
            [ PDict (<[K "storyId" := PStr "S1"]>
                    (<[K "text" := PStr "story."]>
                    (<[K "type" := PStr "train"]>
                    (<[K "questions" := PList
                      [ PDict (<[K "q" := PStr "what?"]>
                              (<[K "consensus" :=
                                   PDict (<[K "s" := PInt 5]> ∅)]>
                              (<[K "answers" := PList []]> ∅))) ]]> ∅)))) ]]>
            ∅))
        = Run
            [ (0, PDict (<[K "storyId" := PStr "S1"]>
                        (<[K "text" := PStr "story."]>
                        (<[K "type" := PStr "train"]>
                        (<[K "questions" := PList
                          [ PDict (<[K "q" := PStr "what?"]>
                                  (<[K "isAnswerAbsent" := float_zero]>
                                  (<[K "isQuestionBad" := float_zero]>
                                  (<[K "consensus" :=
                                       PDict (<[K "s" := PInt 5]>
                                             (<[K "e" := PInt 0]>
                                             (<[K "badQuestion" := PBool false]>
                                             (<[K "noAnswer" := PBool false]>
                                                ∅))))]>
                                  (<[K "answers" := PList []]>
                                  (<[K "validated_answers" := PList []]>
                                     ∅)))))) ]]> ∅))))) ]
            None).
Proof.
  split; [|split].
  - intros raw. exists (raw ∪ default_span).
    split; [apply override_consensus_dict|]. intros k. apply lookup_over.
  - intros ques raw question Hraw Hbuilt.
    apply build_question_Ok in Hbuilt
      as (qm & q & rc & c & ra & ae & answers & ve & va
          & -> & _ & Hrc & Hc & _ & _ & _ & _ & _ & ->).
    apply getitem_Ok in Hraw as (qm' & [= <-] & Hraw).
    rewrite Hraw in Hrc. injection Hrc as <-.
    rewrite override_consensus_dict in Hc. injection Hc as <-.
    exists (raw ∪ default_span). split; [reflexivity|].
    intros k. apply lookup_over.
  - intros csv_reader. vm_compute. reflexivity.
Qed.

Lemma consensus_defaults_keywise_witness :
  exists consensus : pydict,
    getitem
      (PDict (<[K "q" := PStr "what?"]>
             (<[K "isAnswerAbsent" := float_zero]>
             (<[K "isQuestionBad" := float_zero]>
             (<[K "consensus" :=
                  PDict ((<[K "s" := PInt 5]> ∅) ∪ default_span)]>
             (<[K "answers" := PList []]>
             (<[K "validated_answers" := PList []]> ∅)))))))
      "consensus"
    = Ok (PDict consensus)
    /\ forall k,
         consensus !! k
         = match (<[K "s" := PInt 5]> ∅ : pydict) !! k with
           | Some v => Some v
           | None => default_span !! k
           end.
Proof.
  apply (proj1 (proj2 consensus_defaults_keywise)
           (PDict (<[K "q" := PStr "what?"]>
                  (<[K "consensus" := PDict (<[K "s" := PInt 5]> ∅)]>
                  (<[K "answers" := PList []]> ∅))))).
  - reflexivity.
  - apply build_question_least.
Defined.

(** ** Defaults of the optional keys of a question *)








(** ** Documents without [data] *)

(** C6: a document that has no [data] at its top level ends the read at
    once: nothing is yielded, and the read raises [KeyError] for [data]
    when the document is an object, [TypeError] when it is not one. *)
Theorem document_without_data csv_reader :
  (forall m : pydict,
     m !! K "data" = None ->
     _generate_examples "combined-json" csv_reader (PDict m)
     = Run [] (Some (KeyError "data")))
  /\ (forall d,
        (forall m, d <> PDict m) ->
        _generate_examples "combined-json" csv_reader d
        = Run [] (Some TypeError)).
Proof.
  split.
  - intros m Hm. unfold _generate_examples. simpl.
    unfold read_document. simpl. rewrite Hm. reflexivity.
  - intros d Hd. unfold _generate_examples. simpl. unfold read_document.
    destruct d; try reflexivity. by destruct (Hd m).
Qed.

Lemma document_without_data_witness :
  _generate_examples "combined-json" []
    (PDict (<[K "version" := PStr "1"]> ∅))
  = Run [] (Some (KeyError "data"))
  /\ _generate_examples "combined-json" [] (PList []) = Run [] (Some TypeError).
Proof.
  split.
  - apply (proj1 (document_without_data [])). vm_compute. reflexivity.
  - apply (proj2 (document_without_data [])). intros m. discriminate.
Defined.

(** ** Questions without [consensus] or [answers] *)

Lemma build_item_raise (im : pydict) questions ques e :
  im !! K "questions" = Some (PList questions) ->
  ques ∈ questions ->
  build_question ques = Raise e ->
  exists e', build_item (PDict im) = Raise e'.
Proof.
  intros Hq Hin Hques. unfold build_item.
  rewrite (getitem_dict _ _ _ Hq). cbn [bind py_iter].
  destruct (for_each_raise _ _ _ _ Hin Hques) as [e' ->]. simpl. eauto.
Qed.

(** C9: a question that has no [consensus] or no [answers] is not built:
    it raises, with [KeyError] for the missing key when the keys read
    before it are there, and the read ends at the item of that question at
    the latest, so that no record of this item or of a later one is
    yielded.  A question without [validatedAnswers] is built, with an empty
    [validated_answers]. *)
Theorem question_without_consensus_or_answers :
  (forall qm : pydict,
     qm !! K "consensus" = None \/ qm !! K "answers" = None ->
     exists e, build_question (PDict qm) = Raise e)
  /\ (forall (qm : pydict) (q : pyval),
        qm !! K "q" = Some q ->
        qm !! K "consensus" = None ->
        build_question (PDict qm) = Raise (KeyError "consensus"))
  /\ (forall (qm raw : pydict) (q : pyval),
        qm !! K "q" = Some q ->
        qm !! K "consensus" = Some (PDict raw) ->
        qm !! K "answers" = None ->
        build_question (PDict qm) = Raise (KeyError "answers"))
  /\ (forall csv_reader (dm im qm : pydict) pre post questions,
        dm !! K "data" = Some (PList (pre ++ PDict im :: post)) ->
        im !! K "questions" = Some (PList questions) ->
        PDict qm ∈ questions ->
        qm !! K "consensus" = None \/ qm !! K "answers" = None ->
        let r := _generate_examples "combined-json" csv_reader (PDict dm) in
        (exists e, fault r = Some e)
        /\ forall id rec, (id, rec) ∈ yielded r -> id < length pre)
  /\ (forall (q : pyval) (raw : pydict),
        exists question,
          build_question
            (PDict (<[K "q" := q]>
                   (<[K "consensus" := PDict raw]>
                   (<[K "answers" := PList []]> ∅))))
          = Ok question
          /\ getitem question "validated_answers" = Ok (PList [])).
Proof.
  assert (Hraises : forall qm : pydict,
            qm !! K "consensus" = None \/ qm !! K "answers" = None ->
            exists e, build_question (PDict qm) = Raise e).
  { intros qm Hmissing.
    destruct (build_question (PDict qm)) as [question|e] eqn:Hbuilt; [|eauto].
    apply build_question_Ok in Hbuilt
      as (qm' & q & rc & c & ra & ae & answers & ve & va
          & [= <-] & _ & Hrc & _ & Hra & _).
    destruct Hmissing; congruence. }
  split; [exact Hraises|]. split; [|split; [|split]].
  - intros qm q Hq Hnone. unfold build_question.
    rewrite (getitem_dict _ _ _ Hq). cbn [bind].
    rewrite !flag_or_zero_dict. cbn [bind]. simpl. rewrite Hnone. reflexivity.
  - intros qm raw q Hq Hc Hnone. unfold build_question.
    rewrite (getitem_dict _ _ _ Hq). cbn [bind].
    rewrite !flag_or_zero_dict. cbn [bind].
    rewrite (getitem_dict _ _ _ Hc). cbn [bind].
    rewrite override_consensus_dict. cbn [bind].
    simpl. rewrite Hnone. reflexivity.
  - intros csv_reader dm im qm pre post questions Hdata Hquestions Hin Hmissing.
    destruct (Hraises qm Hmissing) as [e He].
    destruct (build_item_raise _ _ _ _ Hquestions Hin He) as [e' He'].
    unfold _generate_examples. simpl String.eqb. cbv iota.
    unfold read_document. rewrite (getitem_dict _ _ _ Hdata).
    cbn [bind py_iter].
    destruct (enumerate_yield_stops (fun _ => true) build_item
                pre (PDict im) post e' 0 eq_refl He') as [Hy Hf].
    split.
    + rewrite Hf.
      destruct (fault (enumerate_yield _ _ 0 pre)) as [e0|]; eauto.
    + intros id rec Hid. rewrite Hy in Hid.
      apply enumerate_yield_bound in Hid. lia.
  - intros q raw. eexists. split; [apply build_question_least|reflexivity].
Qed.

Lemma question_without_consensus_or_answers_witness :
  build_question
    (PDict (<[K "q" := PStr "what?"]> (<[K "answers" := PList []]> ∅)))
  = Raise (KeyError "consensus")
  /\ build_question
       (PDict (<[K "q" := PStr "what?"]> (<[K "consensus" := PDict ∅]> ∅)))
     = Raise (KeyError "answers")
  /\ let r := _generate_examples "combined-json" []
                (PDict (<[K "data" := PList
                  ([] ++
                   PDict (<[K "storyId" := PStr "S1"]>
                         (<[K "text" := PStr "story."]>
                         (<[K "type" := PStr "train"]>
                         (<[K "questions" := PList
                           [ PDict (<[K "q" := PStr "what?"]>
                                   (<[K "answers" := PList []]> ∅)) ]]> ∅))))
                   :: [])]> ∅)) in
     (exists e, fault r = Some e)
     /\ forall id rec, (id, rec) ∈ yielded r -> id < length ([] : list pyval).
Proof.
  destruct question_without_consensus_or_answers
    as (_ & Hconsensus & Hanswers & Hread & _).
  split; [|split].
  - apply (Hconsensus _ (PStr "what?")); vm_compute; reflexivity.
  - apply (Hanswers _ ∅ (PStr "what?")); vm_compute; reflexivity.
  - apply (Hread []
             (<[K "data" := PList
                ([] ++
                 PDict (<[K "storyId" := PStr "S1"]>
                       (<[K "text" := PStr "story."]>
                       (<[K "type" := PStr "train"]>
                       (<[K "questions" := PList
                         [ PDict (<[K "q" := PStr "what?"]>
                                 (<[K "answers" := PList []]> ∅)) ]]> ∅))))
                 :: [])]> ∅)
             (<[K "storyId" := PStr "S1"]>
             (<[K "text" := PStr "story."]>
             (<[K "type" := PStr "train"]>
             (<[K "questions" := PList
               [ PDict (<[K "q" := PStr "what?"]>
                       (<[K "answers" := PList []]> ∅)) ]]> ∅))))
             (<[K "q" := PStr "what?"]> (<[K "answers" := PList []]> ∅))
             [] []
             [ PDict (<[K "q" := PStr "what?"]>
                     (<[K "answers" := PList []]> ∅)) ]).
    + vm_compute. reflexivity.
    + vm_compute. reflexivity.
    + apply list_elem_of_here.
    + left. vm_compute. reflexivity.
Defined.

(** ** Keys outside the schema *)

Lemma build_answer_Ok ans out :
  build_answer ans = Ok out ->
  exists raw entries sourcer_answers,
    getitem ans "sourcerAnswers" = Ok raw
    /\ py_iter raw = Ok entries
    /\ for_each build_sourcer_answer entries = Ok sourcer_answers
    /\ out = PDict (<[K "sourcerAnswers" := PList sourcer_answers]> ∅).
Proof.
  unfold build_answer. intros H.
  bind_inv H as raw Hraw. bind_inv H as entries Hentries.
  bind_inv H as sas Hsas. injection H as <-. eauto 8.
Qed.

(** C10: laying a raw object over its default keeps every key of the raw
    object with its raw value, whether the schema names the key or not.
    Each of the three merges succeeds on a raw object and keeps the key;
    and in the record of a question the key is found in the consensus, in
    every entry of the [sourcerAnswers] of every answer, and in every entry
    of [validated_answers] whose raw object holds it. *)
Theorem merge_keeps_every_raw_key (raw : pydict) (k : pykey) (v : pyval) :
  raw !! k = Some v ->
  (exists out : pydict,
     override_consensus (PDict raw) default_span = Ok out
     /\ out !! k = Some v)
  /\ (exists out : pydict,
        build_sourcer_answer (PDict raw) = Ok (PDict out)
        /\ out !! k = Some v)
  /\ (exists out : pydict,
        merge_validated (PDict raw) = Ok (PDict out) /\ out !! k = Some v)
  /\ (forall ques question,
        build_question ques = Ok question ->
        (getitem ques "consensus" = Ok (PDict raw) ->
         exists out : pydict,
           getitem question "consensus" = Ok (PDict out)
           /\ out !! k = Some v)
        /\ (forall answers i ans entries j,
              getitem ques "answers" = Ok (PList answers) ->
              answers !! i = Some ans ->
              getitem ans "sourcerAnswers" = Ok (PList entries) ->
              entries !! j = Some (PDict raw) ->
              exists answers' ans' entries' (out : pydict),
                getitem question "answers" = Ok (PList answers')
                /\ answers' !! i = Some ans'
                /\ getitem ans' "sourcerAnswers" = Ok (PList entries')
                /\ entries' !! j = Some (PDict out)
                /\ out !! k = Some v)
        /\ (forall entries j,
              getitem ques "validatedAnswers" = Ok (PList entries) ->
              entries !! j = Some (PDict raw) ->
              exists entries' (out : pydict),
                getitem question "validated_answers" = Ok (PList entries')
                /\ entries' !! j = Some (PDict out)
                /\ out !! k = Some v)).
Proof.
  intros Hk.
  assert (Hover : forall acc : pydict, (raw ∪ acc) !! k = Some v)
    by (intros acc; by rewrite lookup_over, Hk).
  split; [|split; [|split]].
  - exists (raw ∪ default_span). by rewrite override_consensus_dict.
  - exists (raw ∪ default_span). by rewrite build_sourcer_answer_dict.
  - exists (raw ∪ default_validated_answer). split; [reflexivity|apply Hover].
  - intros ques question Hbuilt.
    apply build_question_Ok in Hbuilt
      as (qm & q & rc & c & ra & ae & answers & ve & va
          & -> & _ & Hrc & Hc & Hra & Hae & Hanswers & Hve & Hva & ->).
    split; [|split].
    + intros Hraw.
      apply getitem_Ok in Hraw as (qm' & [= <-] & Hraw).
      rewrite Hraw in Hrc. injection Hrc as <-.
      rewrite override_consensus_dict in Hc. injection Hc as <-.
      exists (raw ∪ default_span). split; [reflexivity|apply Hover].
    + intros raw_answers i ans entries j Hraw Hi Hans Hj.
      apply getitem_Ok in Hraw as (qm' & [= <-] & Hraw).
      rewrite Hraw in Hra. injection Hra as <-.
      injection Hae as <-.
      destruct (for_each_lookup _ _ _ _ _ Hanswers Hi) as (ans' & Hi' & Hans').
      apply build_answer_Ok in Hans'
        as (raw_entries & entries0 & sas & Hget & Hiter & Hsas & ->).
      rewrite Hans in Hget. injection Hget as <-. injection Hiter as <-.
      destruct (for_each_lookup _ _ _ _ _ Hsas Hj) as (out & Hj' & Hout).
      rewrite build_sourcer_answer_dict in Hout. injection Hout as <-.
      eexists answers, _, sas, (raw ∪ default_span).
      split; [reflexivity|]. split; [exact Hi'|]. split; [reflexivity|].
      split; [exact Hj'|apply Hover].
    + intros entries j Hraw Hj.
      apply getitem_Ok in Hraw as (qm' & [= <-] & Hraw).
      rewrite Hraw in Hve. injection Hve as <-.
      destruct (for_each_lookup _ _ _ _ _ Hva Hj) as (out & Hj' & Hout).
      injection Hout as <-.
      exists va, (raw ∪ default_validated_answer).
      split; [reflexivity|]. split; [exact Hj'|apply Hover].
Qed.

Lemma merge_keeps_every_raw_key_witness :
  let raw : pydict := <[K "s" := PInt 5]> (<[K "note" := PStr "n"]> ∅) in
  let ques :=
    PDict (<[K "q" := PStr "what?"]>
          (<[K "consensus" := PDict raw]>
          (<[K "answers" := PList
               [ PDict (<[K "sourcerAnswers" := PList [PDict raw]]> ∅) ]]>
          (<[K "validatedAnswers" := PList [PDict raw]]> ∅)))) in
  raw !! K "note" = Some (PStr "n")
  /\ (exists out : pydict,
        override_consensus (PDict raw) default_span = Ok out
        /\ out !! K "note" = Some (PStr "n"))
  /\ exists question,
       build_question ques = Ok question
       /\ (exists out : pydict,
             getitem question "consensus" = Ok (PDict out)
             /\ out !! K "note" = Some (PStr "n"))
       /\ (exists answers' ans' entries' (out : pydict),
             getitem question "answers" = Ok (PList answers')
             /\ answers' !! 0 = Some ans'
             /\ getitem ans' "sourcerAnswers" = Ok (PList entries')
             /\ entries' !! 0 = Some (PDict out)
             /\ out !! K "note" = Some (PStr "n"))
       /\ (exists entries' (out : pydict),
             getitem question "validated_answers" = Ok (PList entries')
             /\ entries' !! 0 = Some (PDict out)
             /\ out !! K "note" = Some (PStr "n")).
Proof.
  intros raw ques.
  assert (Hk : raw !! K "note" = Some (PStr "n")) by (vm_compute; reflexivity).
  destruct (merge_keeps_every_raw_key raw (K "note") (PStr "n") Hk)
    as (Hmerge & _ & _ & Hquestion).
  split; [exact Hk|]. split; [exact Hmerge|].
  destruct (build_question ques) as [question|e] eqn:Hbuilt;
    [|vm_compute in Hbuilt; discriminate Hbuilt].
  exists question. split; [reflexivity|].
  destruct (Hquestion ques question Hbuilt)
    as (Hconsensus & Hsourcer & Hvalidated).
  split; [|split].
  - apply Hconsensus. vm_compute. reflexivity.
  - apply (Hsourcer [ PDict (<[K "sourcerAnswers" := PList [PDict raw]]> ∅) ]
             0 (PDict (<[K "sourcerAnswers" := PList [PDict raw]]> ∅))
             [PDict raw] 0); vm_compute; reflexivity.
  - apply (Hvalidated [PDict raw] 0); vm_compute; reflexivity.
Defined.

(** ** The partitions of a configuration *)

Lemma append_assoc (a b c : string) : (a ++ b) ++ c = a ++ b ++ c.
Proof.
  induction a as [|x a IH]; [reflexivity|].
  change (String x ((a ++ b) ++ c) = String x (a ++ b ++ c)). by f_equal.
Qed.

Lemma ends_with_append c (a : string) d (b : string) :
  ends_with c (a ++ String d b) = ends_with c (String d b).
Proof.
  induction a as [|x a IH]; [reflexivity|].
  change (String x a ++ String d b) with (String x (a ++ String d b)).
  cbn [ends_with]. destruct (a ++ String d b) eqn:Happ; [|exact IH].
  destruct a; discriminate Happ.
Qed.

(** Joining a name that does not start with a slash to a directory that
    is not empty and does not end with one puts a slash between them. *)
Lemma path_join_plain (a b : string) :
  a <> EmptyString -> ends_with sep a = false -> starts_with sep b = false ->
  path_join a b = a ++ "/" ++ b.
Proof.
  intros Ha Hend Hstart. unfold path_join. rewrite Hstart, Hend.
  apply String.eqb_neq in Ha. rewrite Ha. reflexivity.
Qed.

(** C7: when the folder given does not exist, whatever the configuration,
    [_split_generators] raises [FileNotFoundError] with a message that
    starts with the path looked for and ends with the instructions of the
    manual download; the only path it asked the disk for is that folder,
    and it returns no partition to read. *)
Theorem missing_folder_raises os config_name manual_dir :
  let path_to_manual_folder := abspath os (expanduser os manual_dir) in
  path_exists os path_to_manual_folder = false ->
  let r := _split_generators os config_name manual_dir in
  outcome r
  = Raise (FileNotFoundError
             (path_to_manual_folder
              ++ " does not exist. Make sure you insert a manual dir via `datasets.load_dataset('newsqa', data_dir=...)` that includes files from the Manual download instructions: "
              ++ manual_download_instructions))
  /\ probed r = [path_to_manual_folder]
  /\ partition_paths r = [].
Proof.
  intros root Hmissing. unfold _split_generators, partition_paths.
  fold root. rewrite Hmissing. simpl. auto.
Qed.

Lemma missing_folder_raises_witness :
  let os := {| expanduser := fun p => p;
               abspath := fun p => p;
               path_exists := fun _ => false |} in
  let r := _split_generators os "split" "/data/newsqa" in
  outcome r
  = Raise (FileNotFoundError
             ("/data/newsqa"
              ++ " does not exist. Make sure you insert a manual dir via `datasets.load_dataset('newsqa', data_dir=...)` that includes files from the Manual download instructions: "
              ++ manual_download_instructions))
  /\ probed r = ["/data/newsqa"]
  /\ partition_paths r = [].
Proof.
  intros os.
  apply (missing_folder_raises os "split" "/data/newsqa"). reflexivity.
Defined.

(** C8: when the folder exists, the configuration [split] gives exactly
    three partitions, [train] from [split_data/train.csv], [test] from
    [split_data/test.csv] and [dev], the validation partition, from
    [split_data/dev.csv]; [combined-csv] gives the one partition
    [combined-newsqa-data-v1.csv] and [combined-json] the one partition
    [combined-newsqa-data-v1.json]; every path is joined to the folder, a
    slash being put after a folder that does not end with one. *)
Theorem partitions_of_each_configuration os manual_dir :
  let root := abspath os (expanduser os manual_dir) in
  path_exists os root = true ->
  outcome (_split_generators os "split" manual_dir)
  = Ok [ {| name := TRAIN;
            filepath := path_join (path_join root "split_data") "train.csv";
            split := "train" |};
         {| name := TEST;
            filepath := path_join (path_join root "split_data") "test.csv";
            split := "test" |};
         {| name := VALIDATION;
            filepath := path_join (path_join root "split_data") "dev.csv";
            split := "dev" |} ]
  /\ outcome (_split_generators os "combined-csv" manual_dir)
     = Ok [ {| name := TRAIN;
               filepath := path_join root "combined-newsqa-data-v1.csv";
               split := "combined" |} ]
  /\ outcome (_split_generators os "combined-json" manual_dir)
     = Ok [ {| name := TRAIN;
               filepath := path_join root "combined-newsqa-data-v1.json";
               split := "combined" |} ]
  /\ (root <> EmptyString -> ends_with sep root = false ->
      path_join (path_join root "split_data") "train.csv"
      = root ++ "/split_data/train.csv"
      /\ path_join (path_join root "split_data") "test.csv"
         = root ++ "/split_data/test.csv"
      /\ path_join (path_join root "split_data") "dev.csv"
         = root ++ "/split_data/dev.csv"
      /\ path_join root "combined-newsqa-data-v1.csv"
         = root ++ "/combined-newsqa-data-v1.csv"
      /\ path_join root "combined-newsqa-data-v1.json"
         = root ++ "/combined-newsqa-data-v1.json").
Proof.
  intros root Hexists. unfold _split_generators. fold root.
  rewrite Hexists. simpl.
  split; [reflexivity|]. split; [reflexivity|]. split; [reflexivity|].
  intros Hne Hend.
  assert (Hdir : path_join root "split_data" = root ++ "/split_data")
    by (by apply path_join_plain).
  assert (Hfile : forall file,
            starts_with sep file = false ->
            path_join (path_join root "split_data") file
            = root ++ "/split_data/" ++ file).
  { intros file Hfile. rewrite Hdir, path_join_plain; try done.
    - by rewrite append_assoc.
    - destruct root; [done | discriminate].
    - apply ends_with_append. }
  rewrite !Hfile by reflexivity.
  rewrite !path_join_plain by done. auto.
Qed.

Lemma partitions_of_each_configuration_witness :
  let os := {| expanduser := fun p => p;
               abspath := fun p => p;
               path_exists := fun _ => true |} in
  map filepath
    (match outcome (_split_generators os "split" "/data/newsqa") with
     | Ok generators => generators
     | Raise _ => []
     end)
  = [ "/data/newsqa/split_data/train.csv";
      "/data/newsqa/split_data/test.csv";
      "/data/newsqa/split_data/dev.csv" ].
Proof.
  intros os.
  destruct (partitions_of_each_configuration os "/data/newsqa" eq_refl)
    as (Hsplit & _ & _ & Hplain).
  rewrite Hsplit.
  destruct (Hplain ltac:(discriminate) eq_refl) as (-> & -> & -> & _).
  reflexivity.
Defined.

(** * Further properties of the reader *)

(** ** More on the loop that enumerates and yields *)

Section EnumerateYieldMore.
Context {A : Type} (keep : A -> bool) (make : A -> result pyval).

Lemma enumerate_yield_clean xs : forall start,
  fault (enumerate_yield keep make start xs) = None
  <-> Forall (fun x => keep x = true -> exists rec, make x = Ok rec) xs.
Proof.
  induction xs as [|x rest IH]; intros start; simpl.
  - split; [constructor | reflexivity].
  - destruct (keep x) eqn:Hkeep.
    + destruct (make x) as [rec|e] eqn:Hmake; simpl.
      * rewrite IH. split.
        -- intros Hrest. constructor; [eauto | exact Hrest].
        -- intros Hall. by inversion Hall.
      * split; [discriminate|]. intros Hall. inversion Hall as [|? ? Hx _].
        destruct (Hx Hkeep) as [rec Hrec]. congruence.
    + rewrite IH. split.
      * intros Hrest. constructor; [congruence | exact Hrest].
      * intros Hall. by inversion Hall.
Qed.

Lemma enumerate_yield_count xs : forall start,
  fault (enumerate_yield keep make start xs) = None ->
  length (yielded (enumerate_yield keep make start xs)) + skipped keep xs
  = length xs.
Proof.
  induction xs as [|x rest IH]; intros start; simpl; [reflexivity|].
  destruct (keep x).
  - destruct (make x) as [rec|e]; simpl; [|discriminate].
    intros Hf. rewrite (IH _ Hf). reflexivity.
  - intros Hf. specialize (IH _ Hf). lia.
Qed.

Lemma enumerate_yield_shift k xs : forall start,
  yielded (enumerate_yield keep make (k + start) xs)
  = map (shift_id k) (yielded (enumerate_yield keep make start xs))
  /\ fault (enumerate_yield keep make (k + start) xs)
     = fault (enumerate_yield keep make start xs).
Proof.
  induction xs as [|x rest IH]; intros start; simpl; [auto|].
  specialize (IH (S start)). rewrite <- plus_n_Sm in IH.
  destruct IH as [IHy IHf].
  destruct (keep x); [|auto].
  destruct (make x) as [rec|e]; simpl; [|auto].
  rewrite IHy, IHf. auto.
Qed.

Lemma enumerate_yield_app pre post : forall start,
  yielded (enumerate_yield keep make start (pre ++ post))
  = (yielded (enumerate_yield keep make start pre)
     ++ match fault (enumerate_yield keep make start pre) with
        | None => yielded (enumerate_yield keep make (length pre + start) post)
        | Some _ => []
        end)%list
  /\ fault (enumerate_yield keep make start (pre ++ post))
     = match fault (enumerate_yield keep make start pre) with
       | None => fault (enumerate_yield keep make (length pre + start) post)
       | Some e => Some e
       end.
Proof.
  induction pre as [|x pre IH]; intros start; simpl; [auto|].
  specialize (IH (S start)). rewrite <- plus_n_Sm in IH.
  destruct IH as [IHy IHf].
  destruct (keep x); [|auto].
  destruct (make x) as [rec|e]; simpl; [|auto].
  rewrite IHy, IHf. auto.
Qed.

Lemma enumerate_yield_filter xs : forall start start',
  map snd (yielded (enumerate_yield keep make start xs))
  = map snd (yielded (enumerate_yield keep make start' (List.filter keep xs)))
  /\ fault (enumerate_yield keep make start xs)
     = fault (enumerate_yield keep make start' (List.filter keep xs)).
Proof.
  induction xs as [|x rest IH]; intros start start'; simpl; [auto|].
  destruct (keep x) eqn:Hkeep; simpl; [|apply IH].
  rewrite Hkeep. destruct (make x) as [rec|e]; simpl; [|auto].
  destruct (IH (S start) (S start')) as [-> ->]. auto.
Qed.
End EnumerateYieldMore.

Lemma enumerate_yield_map {A B} (g : A -> B) keep make xs : forall start,
  enumerate_yield keep make start (map g xs)
  = enumerate_yield (fun x => keep (g x)) (fun x => make (g x)) start xs.
Proof.
  induction xs as [|x rest IH]; intros start; simpl; [reflexivity|].
  by rewrite !IH.
Qed.

Lemma enumerate_yield_ext {A} (keep keep' : A -> bool) make make' xs :
  (forall x, keep x = keep' x) -> (forall x, make x = make' x) ->
  forall start,
    enumerate_yield keep make start xs = enumerate_yield keep' make' start xs.
Proof.
  intros Hkeep Hmake.
  induction xs as [|x rest IH]; intros start; simpl; [reflexivity|].
  by rewrite <- Hkeep, <- Hmake, !IH.
Qed.

Lemma enumerate_yield_dense {A} (keep : A -> bool) make xs : forall start,
  Forall (fun x => keep x = true) xs ->
  (yielded (enumerate_yield keep make start xs)).*1
  = seq start (length (yielded (enumerate_yield keep make start xs))).
Proof.
  induction xs as [|x rest IH]; intros start Hall; simpl; [reflexivity|].
  inversion Hall as [|? ? Hx Hrest]; subst. rewrite Hx.
  destruct (make x) as [rec|e]; simpl; [|reflexivity].
  by rewrite <- IH.
Qed.

Lemma sorted_ids_NoDup (ids : list nat) : StronglySorted lt ids -> NoDup ids.
Proof.
  induction 1 as [|id ids Hsorted IH Hall]; constructor; [|exact IH].
  intros Hin. rewrite Forall_forall in Hall.
  specialize (Hall id Hin). lia.
Qed.

(** ** Reading rows: the header, faults and blank rows *)

(** X1: the first row is dropped whatever it holds: two readers that differ
    in their first row only give the same run. *)
Theorem header_row_is_ignored config_name (header header' : row) rows document :
  _generate_examples config_name (header :: rows) document
  = _generate_examples config_name (header' :: rows) document.
Proof.
  unfold _generate_examples.
  destruct (String.eqb _ "combined-csv"); [reflexivity|].
  destruct (String.eqb _ "combined-json"); reflexivity.
Qed.

Lemma row_is_read config_name (r : row) :
  (row_truth r = true -> exists rec, row_example config_name r = Ok rec)
  <-> r = [] \/ columns_needed config_name <= length r.
Proof.
  split.
  - intros Hread.
    destruct r as [|a r]; [by left|]. right.
    destruct (Nat.le_gt_cases (columns_needed config_name) (length (a :: r)))
      as [Hle|Hgt]; [exact Hle|].
    destruct (Hread eq_refl) as [rec Hrec].
    rewrite row_example_short in Hrec by done. discriminate Hrec.
  - intros [->|Hle]; [discriminate|].
    intros _. by apply row_example_enough.
Qed.

Lemma enumerate_reading_yield make rows ending : forall start,
  enumerate_reading make start rows ending
  = Run (yielded (enumerate_yield row_truth make start rows))
        (match fault (enumerate_yield row_truth make start rows) with
         | Some e => Some e
         | None => ending
         end).
Proof.
  induction rows as [|r rest IH]; intros start; simpl; [reflexivity|].
  destruct (row_truth r); [|apply IH].
  destruct (make r) as [rec|e]; [|reflexivity].
  rewrite IH. reflexivity.
Qed.

Lemma generate_examples_from_file_rows config_name opened loaded :
  config_name <> "combined-json" ->
  generate_examples_from_file config_name opened loaded
  = read_file (row_example config_name) opened.
Proof.
  intros Hne. unfold generate_examples_from_file, row_example.
  destruct (String.eqb config_name "combined-csv"); [reflexivity|].
  apply String.eqb_neq in Hne. rewrite Hne. reflexivity.
Qed.

(** A file that opens and is read to its end without an exception is read
    as [_generate_examples] reads its rows. *)
Lemma generate_examples_from_file_whole config_name rows document :
  generate_examples_from_file config_name (Ok (Reading rows None))
    (Ok document)
  = _generate_examples config_name rows document.
Proof.
  unfold generate_examples_from_file, _generate_examples, read_file, read_rows.
  destruct (String.eqb config_name "combined-csv");
    [|destruct (String.eqb config_name "combined-json"); [reflexivity|]];
    (destruct rows as [|header rows]; simpl; [reflexivity|]);
    rewrite enumerate_reading_yield;
    by destruct (enumerate_yield _ _ 0 rows) as [ys [e|]].
Qed.

(** X2: under a configuration that reads rows, the read ends without an
    exception exactly when the file opens, the reader delivers a header and
    then rows without raising, and every row after the header is blank or
    has the columns the configuration needs; it then yields one record for
    each row that is not blank. *)
Theorem rows_read_without_fault config_name opened loaded :
  config_name <> "combined-json" ->
  let r := generate_examples_from_file config_name opened loaded in
  (fault r = None
   <-> exists header rows,
         opened = Ok (Reading (header :: rows) None)
         /\ Forall (fun row : row =>
                      row = [] \/ columns_needed config_name <= length row)
              rows)
  /\ (forall header rows ending,
        opened = Ok (Reading (header :: rows) ending) ->
        fault r = None ->
        length (yielded r) + blank_rows rows = length rows).
Proof.
  intros Hcfg. rewrite generate_examples_from_file_rows by exact Hcfg.
  assert (Hclean : forall rows,
            fault (enumerate_yield row_truth (row_example config_name) 0 rows)
            = None
            <-> Forall (fun row : row =>
                          row = [] \/ columns_needed config_name <= length row)
                  rows).
  { intros rows. rewrite enumerate_yield_clean. apply Forall_iff.
    intros row. apply row_is_read. }
  split.
  - split.
    + destruct opened as [[[|header rows] ending]|e]; simpl;
        [by destruct ending | | discriminate].
      rewrite enumerate_reading_yield. simpl. intros Hf.
      destruct (fault (enumerate_yield _ _ 0 rows)) eqn:Hrows; [discriminate|].
      subst ending. exists header, rows. split; [reflexivity|].
      by apply Hclean.
    + intros (header & rows & -> & Hrows). simpl.
      rewrite enumerate_reading_yield. simpl.
      apply Hclean in Hrows. by rewrite Hrows.
  - intros header rows ending ->. simpl.
    rewrite enumerate_reading_yield. simpl. intros Hf.
    apply enumerate_yield_count.
    by destruct (fault (enumerate_yield _ _ 0 rows)).
Qed.

Lemma rows_read_without_fault_witness :
  "split" <> "combined-json"
  /\ let opened :=
       Ok (Reading
             [ ["story_id"; "story_text"; "question"; "answer_token_ranges"];
               ["A1"; "story text"; "question text"; "0:3,5:7"];
               [] ] None) in
     let r := generate_examples_from_file "split" opened (Ok PNone) in
     fault r = None
     /\ length (yielded r)
        + blank_rows [ ["A1"; "story text"; "question text"; "0:3,5:7"]; [] ]
        = length [ ["A1"; "story text"; "question text"; "0:3,5:7"];
                   ([] : row) ].
Proof.
  split; [discriminate|]. intros opened r.
  destruct (rows_read_without_fault "split" opened (Ok PNone))
    as [Hiff Hcount]; [discriminate|].
  assert (Hf : fault r = None).
  { apply Hiff. eexists _, _. split; [reflexivity|].
    apply Forall_cons_2; [right; vm_compute; lia|].
    apply Forall_cons_2; [by left | apply Forall_nil_2]. }
  split; [exact Hf|]. by eapply Hcount.
Defined.



(** X4: blank rows only move the ids: without them the same records are
    yielded in the same order and the read ends the same way, and the ids
    are then 0, 1, 2, ... without a gap. *)
Theorem blank_rows_only_move_ids config_name header rows document :
  config_name <> "combined-json" ->
  let r := _generate_examples config_name (header :: rows) document in
  let r' := _generate_examples config_name
              (header :: without_blank_rows rows) document in
  map snd (yielded r) = map snd (yielded r')
  /\ fault r = fault r'
  /\ (yielded r').*1 = seq 0 (length (yielded r')).
Proof.
  intros Hcfg. rewrite !generate_examples_rows by exact Hcfg. simpl.
  destruct (enumerate_yield_filter row_truth (row_example config_name)
              rows 0 0) as [Hy Hf].
  split; [exact Hy|]. split; [exact Hf|].
  apply enumerate_yield_dense. unfold without_blank_rows.
  apply Forall_forall. intros row Hin.
  apply list_elem_of_In, filter_In in Hin. tauto.
Qed.

Lemma blank_rows_only_move_ids_witness :
  "combined-csv" <> "combined-json"
  /\ let rows : list row :=
       [ []; ["A1"; "what?"; "0:3"; EmptyString; "story."]; [];
         ["A2"; "who?"; "1:2"; EmptyString; "story."] ] in
     let r := _generate_examples "combined-csv"
                (["id"; "q"; "s1"; "s2"; "text"] :: rows) PNone in
     let r' := _generate_examples "combined-csv"
                 (["id"; "q"; "s1"; "s2"; "text"] :: without_blank_rows rows)
                 PNone in
     map snd (yielded r) = map snd (yielded r')
     /\ fault r = fault r'
     /\ (yielded r').*1 = seq 0 (length (yielded r')).
Proof.
  split; [discriminate|].
  apply (blank_rows_only_move_ids "combined-csv"). discriminate.
Defined.

(** X5: reading the rows [pre] followed by the rows [post] is reading
    [pre] and then, unless that read raised, reading [post] with the ids
    moved on by the number of rows of [pre]. *)
Theorem rows_read_in_two_parts config_name header pre post document :
  config_name <> "combined-json" ->
  let r1 := _generate_examples config_name (header :: pre) document in
  let r2 := _generate_examples config_name (header :: post) document in
  let r := _generate_examples config_name (header :: pre ++ post) document in
  yielded r
  = (yielded r1
     ++ match fault r1 with
        | None => map (shift_id (length pre)) (yielded r2)
        | Some _ => []
        end)%list
  /\ fault r
     = match fault r1 with
       | None => fault r2
       | Some e => Some e
       end.
Proof.
  intros Hcfg. rewrite !generate_examples_rows by exact Hcfg. simpl.
  destruct (enumerate_yield_app row_truth (row_example config_name)
              pre post 0) as [Hy Hf].
  destruct (enumerate_yield_shift row_truth (row_example config_name)
              (length pre) post 0) as [Hsy Hsf].
  rewrite Hy, Hf, Hsy, Hsf. auto.
Qed.

Lemma rows_read_in_two_parts_witness :
  "split" <> "combined-json"
  /\ let header := ["story_id"; "story_text"; "question"; "answer_token_ranges"] in
     let pre : list row := [ []; ["A1"; "story text"; "question text"; "0:3"] ] in
     let post : list row := [ ["A2"; "story text"; "question text"; "5:7"] ] in
     let r1 := _generate_examples "split" (header :: pre) PNone in
     let r2 := _generate_examples "split" (header :: post) PNone in
     let r := _generate_examples "split" (header :: pre ++ post) PNone in
     yielded r
     = (yielded r1
        ++ match fault r1 with
           | None => map (shift_id (length pre)) (yielded r2)
           | Some _ => []
           end)%list
     /\ fault r
        = match fault r1 with
          | None => fault r2
          | Some e => Some e
          end.
Proof.
  split; [discriminate|].
  apply (rows_read_in_two_parts "split"). discriminate.
Defined.

(** ** Columns that are read and columns that are not *)

Lemma split_example_take (r : row) : split_example (take 4 r) = split_example r.
Proof.
  destruct r as [|a [|b [|c [|d r]]]]; try reflexivity.
  unfold split_example.
  rewrite !(py_index_nat _ 0), !(py_index_nat _ 1), !(py_index_nat _ 2),
    !(py_index_nat _ 3).
  reflexivity.
Qed.

Lemma row_truth_take (r : row) : row_truth (take 4 r) = row_truth r.
Proof. by destruct r. Qed.

(** X6: a file of [split_data] is read by its first four columns only:
    cutting every row after its fourth column changes nothing in what is
    yielded or raised. *)
Theorem split_reads_four_columns config_name header rows document :
  config_name <> "combined-csv" ->
  config_name <> "combined-json" ->
  _generate_examples config_name (header :: rows) document
  = _generate_examples config_name (header :: keep_columns 4 rows) document.
Proof.
  intros Hcsv Hjson. rewrite !generate_examples_rows by exact Hjson.
  unfold row_example. apply String.eqb_neq in Hcsv. rewrite Hcsv.
  unfold keep_columns. simpl. rewrite enumerate_yield_map.
  apply enumerate_yield_ext; intros r;
    [by rewrite row_truth_take | by rewrite split_example_take].
Qed.

Lemma split_reads_four_columns_witness :
  _generate_examples "split"
    [ ["story_id"; "story_text"; "question"; "answer_token_ranges"; "extra"];
      ["A1"; "story text"; "question text"; "0:3,5:7"; "more"; "and more"];
      ["A2"; "story text"] ] PNone
  = _generate_examples "split"
      (["story_id"; "story_text"; "question"; "answer_token_ranges"; "extra"]
       :: keep_columns 4
            [ ["A1"; "story text"; "question text"; "0:3,5:7"; "more";
               "and more"];
              ["A2"; "story text"] ]) PNone.
Proof.
  apply (split_reads_four_columns "split"); discriminate.
Defined.

(** X7: a row of the combined file with two, three or four columns has no
    column between its first two and its last two: its
    [answer_char_ranges] is the text of the empty list; and with two
    columns only, the second one is both the question and the story. *)
Theorem combined_row_of_few_columns (r : row) :
  2 <= length r <= 4 ->
  exists rec,
    row_example "combined-csv" r = Ok rec
    /\ getitem rec "answer_char_ranges" = Ok (PStr "[]")
    /\ (length r = 2 ->
        getitem rec "story_text" = getitem rec "question").
Proof.
  intros Hlen.
  destruct r as [|a [|b [|c [|d [|x r]]]]]; simpl in Hlen; try lia.
  - eexists. split; [reflexivity|]. split; [reflexivity|].
    intros _. reflexivity.
  - eexists. split; [reflexivity|]. split; [reflexivity|]. discriminate.
  - eexists. split; [reflexivity|]. split; [reflexivity|]. discriminate.
Qed.

Lemma combined_row_of_few_columns_witness :
  exists rec,
    row_example "combined-csv" ["A1"; "what?"] = Ok rec
    /\ getitem rec "answer_char_ranges" = Ok (PStr "[]")
    /\ (length ["A1"; "what?"] = 2 ->
        getitem rec "story_text" = getitem rec "question").
Proof.
  apply (combined_row_of_few_columns ["A1"; "what?"]). simpl. lia.
Defined.

(** ** Ids *)

Lemma read_rows_ids_sorted make csv_reader :
  StronglySorted lt (yielded (read_rows make csv_reader)).*1.
Proof.
  destruct csv_reader as [|header rows]; simpl; [constructor|].
  apply enumerate_yield_ids_sorted.
Qed.

(** X9: under every configuration no id is yielded twice in one read,
    whatever the file holds. *)
Theorem ids_are_unique config_name csv_reader document :
  NoDup (yielded (_generate_examples config_name csv_reader document)).*1.
Proof.
  apply sorted_ids_NoDup. unfold _generate_examples.
  destruct (String.eqb _ "combined-csv"); [apply read_rows_ids_sorted|].
  destruct (String.eqb _ "combined-json"); [|apply read_rows_ids_sorted].
  unfold read_document.
  destruct (bind _ _) as [items|e]; simpl; [|constructor].
  apply enumerate_yield_ids_sorted.
Qed.

(** ** The text of a list of columns *)

Lemma append_cons c (a b : string) : String c a ++ b = String c (a ++ b).
Proof. reflexivity. Qed.

Lemma unrepr_repr_char quote c tail :
  quote = squote \/ quote = dquote ->
  unrepr_chars quote (repr_char quote c ++ tail)
  = match unrepr_chars quote tail with
    | Some (body, after) => Some (String c body, after)
    | None => None
    end.
Proof.
  intros [->| ->];
    destruct c as [[] [] [] [] [] [] [] []]; reflexivity.
Qed.

Lemma unrepr_repr_chars quote s after :
  quote = squote \/ quote = dquote ->
  unrepr_chars quote (repr_chars quote s ++ String quote after)
  = Some (s, after).
Proof.
  intros Hq. induction s as [|c s IH].
  - simpl. by rewrite Ascii.eqb_refl.
  - change (repr_chars quote (String c s))
      with (repr_char quote c ++ repr_chars quote s).
    by rewrite append_assoc, unrepr_repr_char, IH.
Qed.

Lemma py_repr_append s after :
  exists quote,
    (quote = squote \/ quote = dquote)
    /\ py_repr s ++ after
       = String quote (repr_chars quote s ++ String quote after).
Proof.
  unfold py_repr.
  destruct (contains_char squote s && negb (contains_char dquote s));
    [exists dquote | exists squote]; (split; [auto|]);
    cbv zeta; rewrite append_cons; f_equal; by rewrite append_assoc.
Qed.

Lemma py_repr_append_inj s1 s2 after1 after2 :
  py_repr s1 ++ after1 = py_repr s2 ++ after2 -> s1 = s2 /\ after1 = after2.
Proof.
  destruct (py_repr_append s1 after1) as (q1 & Hq1 & ->).
  destruct (py_repr_append s2 after2) as (q2 & Hq2 & ->).
  intros [= <- Hbody].
  apply (f_equal (unrepr_chars q1)) in Hbody.
  rewrite !unrepr_repr_chars in Hbody by exact Hq1.
  by injection Hbody.
Qed.

Lemma list_body_cons x l :
  list_body (x :: l)
  = py_repr x ++ match l with
                 | [] => "]"
                 | _ :: _ => ", " ++ list_body l
                 end.
Proof.
  unfold list_body. destruct l as [|y l]; [reflexivity|].
  change (map py_repr (x :: y :: l))
    with (py_repr x :: map py_repr (y :: l)).
  change (join_with ", " (py_repr x :: map py_repr (y :: l)))
    with (py_repr x ++ ", " ++ join_with ", " (map py_repr (y :: l))).
  by rewrite !append_assoc.
Qed.

Lemma list_body_inj l1 : forall l2, list_body l1 = list_body l2 -> l1 = l2.
Proof.
  induction l1 as [|x1 l1 IH]; intros [|x2 l2]; [reflexivity| | |].
  - rewrite list_body_cons.
    destruct (py_repr_append x2 (match l2 with
                                 | [] => "]"
                                 | _ :: _ => ", " ++ list_body l2
                                 end)) as (q & [-> | ->] & ->);
      discriminate.
  - rewrite list_body_cons.
    destruct (py_repr_append x1 (match l1 with
                                 | [] => "]"
                                 | _ :: _ => ", " ++ list_body l1
                                 end)) as (q & [-> | ->] & ->);
      discriminate.
  - rewrite !list_body_cons. intros Heq.
    apply py_repr_append_inj in Heq as [-> Hrest]. f_equal.
    destruct l1 as [|y1 l1], l2 as [|y2 l2]; [reflexivity| | |].
    + discriminate Hrest.
    + discriminate Hrest.
    + apply IH. by injection Hrest.
Qed.

(** X8: the text that [str] gives for a list of columns determines the
    columns: two rows of the combined file whose records have the same
    [answer_char_ranges] have the same columns between their first two and
    their last two. *)
Theorem answer_char_ranges_determine_columns :
  (forall l1 l2 : list string, py_str_list l1 = py_str_list l2 -> l1 = l2)
  /\ (forall (r1 r2 : row) rec1 rec2,
        combined_csv_example r1 = Ok rec1 ->
        combined_csv_example r2 = Ok rec2 ->
        getitem rec1 "answer_char_ranges" = getitem rec2 "answer_char_ranges" ->
        py_slice r1 2 (-2) = py_slice r2 2 (-2)).
Proof.
  assert (Hinj : forall l1 l2 : list string,
            py_str_list l1 = py_str_list l2 -> l1 = l2).
  { intros l1 l2 Heq. apply list_body_inj.
    change (py_str_list l1) with (String "[" (list_body l1)) in Heq.
    change (py_str_list l2) with (String "[" (list_body l2)) in Heq.
    by injection Heq. }
  split; [exact Hinj|].
  intros r1 r2 rec1 rec2 H1 H2 Hsame.
  apply combined_csv_example_ok in H1 as (a1 & b1 & c1 & _ & _ & _ & ->).
  apply combined_csv_example_ok in H2 as (a2 & b2 & c2 & _ & _ & _ & ->).
  rewrite !py_slice_2_m2. apply Hinj.
  assert (Hget : forall a b c d : pyval,
            getitem (PDict (<[K "story_id" := a]>
                           (<[K "story_text" := b]>
                           (<[K "question" := c]>
                           (<[K "answer_char_ranges" := d]> ∅)))))
              "answer_char_ranges" = Ok d) by reflexivity.
  rewrite !Hget in Hsame. congruence.
Qed.

Lemma answer_char_ranges_determine_columns_witness :
  py_slice ["A1"; "what?"; "0:3"; "it's"; "1"; "story."] 2 (-2)
  = py_slice ["A2"; "who?"; "0:3"; "it's"; "0"; "another story."] 2 (-2).
Proof.
  eapply (proj2 answer_char_ranges_determine_columns);
    [reflexivity | reflexivity | vm_compute; reflexivity].
Defined.

(** ** Reading a document: ids and numbers of entries *)

Lemma for_each_length {A B} (f : A -> result B) xs ys :
  for_each f xs = Ok ys -> length ys = length xs.
Proof.
  intros H. apply for_each_Forall2 in H. symmetry. by eapply Forall2_length.
Qed.

(** X10: under [combined-json] the ids are 0, 1, 2, ... without a gap;
    when [data] is a list no more records are yielded than it has items,
    and as many when the read ends without an exception. *)
Theorem document_ids_are_dense csv_reader d :
  let r := _generate_examples "combined-json" csv_reader d in
  (yielded r).*1 = seq 0 (length (yielded r))
  /\ (forall items,
        getitem d "data" = Ok (PList items) ->
        length (yielded r) <= length items
        /\ (fault r = None -> length (yielded r) = length items)).
Proof.
  change (_generate_examples "combined-json" csv_reader d)
    with (read_document d).
  unfold read_document. split.
  - destruct (bind _ _) as [items|e]; [|reflexivity].
    apply enumerate_yield_dense. apply Forall_forall. auto.
  - intros items ->. cbn [bind py_iter].
    assert (Hnone : skipped (fun _ : pyval => true) items = 0)
      by (induction items; simpl; auto).
    split.
    + destruct (enumerate_yield_ids_sorted (fun _ => true) build_item items 0)
        as [_ Hsorted].
      destruct (yielded _) as [|[id rec] ys] eqn:Hy; simpl; [lia|].
      assert (Hlast : exists p, last ((id, rec) :: ys) = Some p)
        by (destruct (last ((id, rec) :: ys)) eqn:Hl;
            [eauto | by apply last_None in Hl]).
      destruct Hlast as [[id' rec'] Hlast].
      rewrite last_lookup in Hlast. simpl in Hlast.
      pose proof (enumerate_yield_lookup (fun _ => true) build_item items 0
                    (length ys) id' rec') as Hlook.
      rewrite Hy in Hlook. destruct (Hlook Hlast) as (x & _ & Hx & _ & _ & Hpos).
      apply lookup_lt_Some in Hx. lia.
    + intros Hf. pose proof (enumerate_yield_count _ _ _ _ Hf) as Hcount.
      rewrite Hnone in Hcount. lia.
Qed.

Lemma document_ids_are_dense_witness :
  let d := PDict (<[K "data" := PList
             [ PDict (<[K "storyId" := PStr "S1"]>
                     (<[K "text" := PStr "story."]>
                     (<[K "type" := PStr "train"]>
                     (<[K "questions" := PList []]> ∅))));
               PDict (<[K "storyId" := PStr "S2"]>
                     (<[K "text" := PStr "story."]>
                     (<[K "type" := PStr "train"]>
                     (<[K "questions" := PList []]> ∅)))) ]]> ∅) in
  let r := _generate_examples "combined-json" [] d in
  (yielded r).*1 = [0; 1] /\ length (yielded r) = 2.
Proof.
  intros d r.
  destruct (document_ids_are_dense [] d) as [Hids Hcount].
  destruct (Hcount _ eq_refl) as [_ Hall].
  assert (Hlen : length (yielded r) = 2) by (apply Hall; vm_compute; reflexivity).
  split; [|exact Hlen].
  fold r in Hids. rewrite Hids, Hlen. reflexivity.
Defined.

(** X11: the [questions] of a yielded record are the records of the raw
    questions of its item, as many and in the same order. *)
Theorem questions_are_built_one_for_one (im : pydict) raw_questions rec :
  im !! K "questions" = Some (PList raw_questions) ->
  build_item (PDict im) = Ok rec ->
  exists questions,
    getitem rec "questions" = Ok (PList questions)
    /\ length questions = length raw_questions
    /\ forall i ques,
         raw_questions !! i = Some ques ->
         exists question,
           questions !! i = Some question
           /\ build_question ques = Ok question.
Proof.
  intros Hq Hbuilt. unfold build_item in Hbuilt.
  rewrite (getitem_dict _ _ _ Hq) in Hbuilt. cbn [bind py_iter] in Hbuilt.
  bind_inv Hbuilt as questions Hquestions.
  bind_inv Hbuilt as sid Hsid. bind_inv Hbuilt as text Htext.
  bind_inv Hbuilt as type Htype. injection Hbuilt as <-.
  exists questions. split; [reflexivity|].
  split; [by eapply for_each_length|].
  intros i ques Hi. by eapply for_each_lookup.
Qed.

Lemma questions_are_built_one_for_one_witness :
  let ques :=
    PDict (<[K "q" := PStr "what?"]>
          (<[K "consensus" := PDict ∅]>
          (<[K "answers" := PList []]> ∅))) in
  let im : pydict :=
    <[K "storyId" := PStr "S1"]>
    (<[K "text" := PStr "story."]>
    (<[K "type" := PStr "train"]>
    (<[K "questions" := PList [ques; ques]]> ∅))) in
  exists rec questions,
    build_item (PDict im) = Ok rec
    /\ getitem rec "questions" = Ok (PList questions)
    /\ length questions = 2.
Proof.
  intros ques im.
  destruct (build_item (PDict im)) as [rec|e] eqn:Hbuilt;
    [|vm_compute in Hbuilt; discriminate Hbuilt].
  destruct (questions_are_built_one_for_one im [ques; ques] rec)
    as (questions & Hget & Hlen & _); [vm_compute; reflexivity | exact Hbuilt |].
  exists rec, questions. auto.
Defined.

(** X12: in the record of a question there are as many [answers] as the raw
    question has, each with as many [sourcerAnswers] as its raw answer, and
    as many [validated_answers] as the raw [validatedAnswers]. *)
Theorem entries_are_kept_one_for_one ques question :
  build_question ques = Ok question ->
  (forall answers,
     getitem ques "answers" = Ok (PList answers) ->
     exists answers',
       getitem question "answers" = Ok (PList answers')
       /\ length answers' = length answers
       /\ forall i ans entries,
            answers !! i = Some ans ->
            getitem ans "sourcerAnswers" = Ok (PList entries) ->
            exists ans' entries',
              answers' !! i = Some ans'
              /\ getitem ans' "sourcerAnswers" = Ok (PList entries')
              /\ length entries' = length entries)
  /\ (forall entries,
        getitem ques "validatedAnswers" = Ok (PList entries) ->
        exists entries',
          getitem question "validated_answers" = Ok (PList entries')
          /\ length entries' = length entries).
Proof.
  intros Hbuilt.
  apply build_question_Ok in Hbuilt
    as (qm & q & rc & c & ra & ae & answers & ve & va
        & -> & _ & _ & _ & Hra & Hae & Hanswers & Hve & Hva & ->).
  split.
  - intros raw_answers Hraw.
    apply getitem_Ok in Hraw as (qm' & [= <-] & Hraw).
    rewrite Hraw in Hra. injection Hra as <-. injection Hae as <-.
    exists answers. split; [reflexivity|].
    split; [by eapply for_each_length|].
    intros i ans entries Hi Hans.
    destruct (for_each_lookup _ _ _ _ _ Hanswers Hi) as (ans' & Hi' & Hans').
    apply build_answer_Ok in Hans'
      as (raw_entries & entries0 & sas & Hget & Hiter & Hsas & ->).
    rewrite Hans in Hget. injection Hget as <-. injection Hiter as <-.
    eexists _, sas. split; [exact Hi'|]. split; [reflexivity|].
    by eapply for_each_length.
  - intros entries Hraw.
    apply getitem_Ok in Hraw as (qm' & [= <-] & Hraw).
    rewrite Hraw in Hve. injection Hve as <-.
    exists va. split; [reflexivity|]. by eapply for_each_length.
Qed.

Lemma entries_are_kept_one_for_one_witness :
  let ques :=
    PDict (<[K "q" := PStr "what?"]>
          (<[K "consensus" := PDict ∅]>
          (<[K "answers" := PList
               [ PDict (<[K "sourcerAnswers" := PList [PDict ∅; PDict ∅]]> ∅) ]]>
          (<[K "validatedAnswers" := PList [PDict ∅; PDict ∅; PDict ∅]]> ∅)))) in
  exists question answers' entries',
    build_question ques = Ok question
    /\ getitem question "answers" = Ok (PList answers')
    /\ length answers' = 1
    /\ getitem question "validated_answers" = Ok (PList entries')
    /\ length entries' = 3.
Proof.
  intros ques.
  destruct (build_question ques) as [question|e] eqn:Hbuilt;
    [|vm_compute in Hbuilt; discriminate Hbuilt].
  destruct (entries_are_kept_one_for_one ques question Hbuilt)
    as [Hanswers Hvalidated].
  destruct (Hanswers
              [ PDict (<[K "sourcerAnswers" := PList [PDict ∅; PDict ∅]]> ∅) ])
    as (answers' & Hget & Hlen & _); [vm_compute; reflexivity|].
  destruct (Hvalidated [PDict ∅; PDict ∅; PDict ∅])
    as (entries' & Hget' & Hlen'); [vm_compute; reflexivity|].
  exists question, answers', entries'. auto 6.
Defined.

(** ** The records and the features that [_info] declares *)

(** X13: under a configuration that reads rows, a yielded record has
    exactly the keys that [_info] declares for the configuration, every one
    declared as a string and holding a string. *)
Theorem row_records_have_the_declared_features
    config_name csv_reader document n id rec :
  config_name <> "combined-json" ->
  yielded (_generate_examples config_name csv_reader document) !! n
  = Some (id, rec) ->
  exists m : pydict,
    rec = PDict m
    /\ dom m = field_names (info_features config_name)
    /\ forall field f,
         (field, f) ∈ info_features config_name ->
         f = Value "string" /\ exists s, m !! K field = Some (PStr s).
Proof.
  intros Hcfg. rewrite generate_examples_rows by exact Hcfg.
  destruct csv_reader as [|header rows]; [discriminate|].
  intros Hn.
  destruct (read_rows_lookup _ _ _ _ _ _ Hn) as (r & _ & _ & Hmake & _).
  apply String.eqb_neq in Hcfg.
  unfold row_example in Hmake. unfold info_features. rewrite Hcfg.
  destruct (String.eqb config_name "combined-csv").
  - apply combined_csv_example_ok in Hmake as (a & b & c & _ & _ & _ & ->).
    eexists. split; [reflexivity|]. split; [vm_compute; reflexivity|].
    intros field f Hin. repeat (apply elem_of_cons in Hin as [[= -> ->]|Hin];
      [split; [reflexivity | eexists; reflexivity]|]).
    by apply elem_of_nil in Hin.
  - unfold split_example in Hmake.
    bind_inv Hmake as a Ha. bind_inv Hmake as b Hb.
    bind_inv Hmake as c Hc. bind_inv Hmake as d Hd. injection Hmake as <-.
    eexists. split; [reflexivity|]. split; [vm_compute; reflexivity|].
    intros field f Hin. repeat (apply elem_of_cons in Hin as [[= -> ->]|Hin];
      [split; [reflexivity | eexists; reflexivity]|]).
    by apply elem_of_nil in Hin.
Qed.

Lemma row_records_have_the_declared_features_witness :
  exists m : pydict,
    PDict (<[K "story_id" := PStr "A1"]>
          (<[K "story_text" := PStr "story text"]>
          (<[K "question" := PStr "question text"]>
          (<[K "answer_token_ranges" := PStr "0:3,5:7"]> ∅))))
    = PDict m
    /\ dom m = field_names (info_features "split")
    /\ forall field f,
         (field, f) ∈ info_features "split" ->
         f = Value "string" /\ exists s, m !! K field = Some (PStr s).
Proof.
  apply (row_records_have_the_declared_features "split"
           [ ["story_id"; "story_text"; "question"; "answer_token_ranges"];
             [];
             ["A1"; "story text"; "question text"; "0:3,5:7"] ]
           PNone 0 1).
  - discriminate.
  - vm_compute. reflexivity.
Defined.

Lemma build_item_Ok item rec :
  build_item item = Ok rec ->
  exists (im : pydict) questions,
    item = PDict im
    /\ Forall (fun question =>
                 exists ques, build_question ques = Ok question) questions
    /\ rec = PDict (<[K "storyId" := default PNone (im !! K "storyId")]>
                   (<[K "text" := default PNone (im !! K "text")]>
                   (<[K "type" := default PNone (im !! K "type")]>
                   (<[K "questions" := PList questions]> ∅))))
    /\ is_Some (im !! K "storyId") /\ is_Some (im !! K "text")
    /\ is_Some (im !! K "type").
Proof.
  unfold build_item. intros H.
  bind_inv H as rq Hrq. apply getitem_Ok in Hrq as (im & -> & Hrq).
  bind_inv H as entries Hentries. bind_inv H as questions Hquestions.
  bind_inv H as sid Hsid. apply getitem_Ok in Hsid as (? & [= <-] & Hsid).
  bind_inv H as text Htext. apply getitem_Ok in Htext as (? & [= <-] & Htext).
  bind_inv H as type Htype. apply getitem_Ok in Htype as (? & [= <-] & Htype).
  injection H as <-. exists im, questions.
  rewrite Hsid, Htext, Htype. split; [reflexivity|]. split; [|eauto].
  apply for_each_Forall2 in Hquestions.
  clear -Hquestions. induction Hquestions; constructor; eauto.
Qed.

(** X14: under [combined-json] a yielded record has exactly the four keys
    that [_info] declares, with [storyId], [text] and [type] as the item
    has them, and each of its [questions] has exactly the six keys declared
    for a question: other keys of an item or of a raw question are left
    out. *)
Theorem document_records_have_the_declared_features csv_reader d n id rec :
  yielded (_generate_examples "combined-json" csv_reader d) !! n
  = Some (id, rec) ->
  exists (m : pydict) data items item questions,
    getitem d "data" = Ok data /\ py_iter data = Ok items
    /\ items !! n = Some item
    /\ rec = PDict m
    /\ dom m = field_names (info_features "combined-json")
    /\ getitem rec "storyId" = getitem item "storyId"
    /\ getitem rec "text" = getitem item "text"
    /\ getitem rec "type" = getitem item "type"
    /\ m !! K "questions" = Some (PList questions)
    /\ Forall (fun question =>
                 exists qm : pydict,
                   question = PDict qm
                   /\ dom qm
                      = field_names
                          (subfields "questions"
                             (info_features "combined-json")))
         questions.
Proof.
  change (_generate_examples "combined-json" csv_reader d)
    with (read_document d).
  intros Hn.
  apply read_document_lookup in Hn
    as (data & items & item & Hdata & Hitems & _ & Hitem & Hbuilt).
  apply build_item_Ok in Hbuilt
    as (im & questions & -> & Hquestions & -> & [sid Hsid] & [text Htext]
        & [type Htype]).
  eexists _, data, items, (PDict im), questions.
  split; [exact Hdata|]. split; [exact Hitems|]. split; [exact Hitem|].
  split; [reflexivity|]. split; [vm_compute; reflexivity|].
  rewrite Hsid, Htext, Htype.
  split; [by rewrite (getitem_dict _ _ _ Hsid)|].
  split; [by rewrite (getitem_dict _ _ _ Htext)|].
  split; [by rewrite (getitem_dict _ _ _ Htype)|].
  split; [reflexivity|].
  eapply Forall_impl; [exact Hquestions|].
  intros question [ques Hques].
  apply build_question_Ok in Hques
    as (qm & q & rc & c & ra & ae & answers & ve & va & _ & _ & _ & _ & _
        & _ & _ & _ & _ & ->).
  eexists. split; [reflexivity|]. vm_compute. reflexivity.
Qed.

Lemma document_records_have_the_declared_features_witness :
  let item :=
    PDict (<[K "storyId" := PStr "S1"]>
          (<[K "text" := PStr "story."]>
          (<[K "type" := PStr "train"]>
          (<[K "note" := PStr "left out"]>
          (<[K "questions" := PList
             [ PDict (<[K "q" := PStr "what?"]>
                     (<[K "note" := PStr "left out"]>
                     (<[K "consensus" := PDict ∅]>
                     (<[K "answers" := PList []]> ∅)))) ]]> ∅))))) in
  exists rec (m : pydict),
    yielded (_generate_examples "combined-json" []
               (PDict (<[K "data" := PList [item]]> ∅))) !! 0
    = Some (0, rec)
    /\ rec = PDict m
    /\ dom m = field_names (info_features "combined-json")
    /\ getitem rec "storyId" = getitem item "storyId".
Proof.
  intros item.
  destruct (yielded (_generate_examples "combined-json" []
                       (PDict (<[K "data" := PList [item]]> ∅))) !! 0)
    as [[id rec]|] eqn:Hn; [|vm_compute in Hn; discriminate Hn].
  assert (id = 0) as -> by (vm_compute in Hn; by injection Hn).
  destruct (document_records_have_the_declared_features _ _ _ _ _ Hn)
    as (m & data & items & item' & questions & Hdata & Hitems & Hitem
        & Hrec & Hdom & Hsid & _).
  change (getitem _ "data") with (Ok (PList [item])) in Hdata.
  injection Hdata as <-. cbn [py_iter] in Hitems. injection Hitems as <-.
  cbn [lookup list_lookup] in Hitem. injection Hitem as <-.
  exists rec, m. auto.
Defined.

(** ** The keys of a span *)

Lemma over_default (raw d : pydict) :
  dom (raw ∪ d) = dom raw ∪ dom d /\ (dom d ⊆ dom raw -> raw ∪ d = raw).
Proof.
  split; [apply dom_union_L|].
  intros Hsub. apply map_eq. intros k. rewrite lookup_over.
  destruct (raw !! k) eqn:Hk; [reflexivity|].
  apply not_elem_of_dom. intros Hin. apply Hsub in Hin.
  by apply not_elem_of_dom in Hk.
Qed.

(** X15: the defaults of the three merges are the keys [_info] declares for
    a consensus, for an entry of [sourcerAnswers] and for an entry of
    [validated_answers]: a merged span has the keys of its raw object and
    the declared ones, and a raw object that has every declared key is
    yielded as it is. *)
Theorem spans_have_the_declared_keys (raw : pydict) :
  let question_fields := subfields "questions" (info_features "combined-json") in
  let consensus_keys := field_names (subfields "consensus" question_fields) in
  let sourcer_keys :=
    field_names (subfields "sourcerAnswers"
                   (subfields "answers" question_fields)) in
  let validated_keys :=
    field_names (subfields "validated_answers" question_fields) in
  (exists out : pydict,
     override_consensus (PDict raw) default_span = Ok out
     /\ dom out = dom raw ∪ consensus_keys
     /\ (consensus_keys ⊆ dom raw -> out = raw))
  /\ (exists out : pydict,
        build_sourcer_answer (PDict raw) = Ok (PDict out)
        /\ dom out = dom raw ∪ sourcer_keys
        /\ (sourcer_keys ⊆ dom raw -> out = raw))
  /\ (exists out : pydict,
        merge_validated (PDict raw) = Ok (PDict out)
        /\ dom out = dom raw ∪ validated_keys
        /\ (validated_keys ⊆ dom raw -> out = raw)).
Proof.
  intros question_fields consensus_keys sourcer_keys validated_keys.
  assert (Hspan : dom default_span = consensus_keys)
    by (vm_compute; reflexivity).
  assert (Hsourcer : dom default_span = sourcer_keys)
    by (vm_compute; reflexivity).
  assert (Hvalidated : dom default_validated_answer = validated_keys)
    by (vm_compute; reflexivity).
  split; [|split].
  - exists (raw ∪ default_span). rewrite override_consensus_dict.
    rewrite <- Hspan. split; [reflexivity | apply over_default].
  - exists (raw ∪ default_span). rewrite build_sourcer_answer_dict.
    rewrite <- Hsourcer. split; [reflexivity | apply over_default].
  - exists (raw ∪ default_validated_answer).
    rewrite <- Hvalidated. split; [reflexivity | apply over_default].
Qed.

Lemma spans_have_the_declared_keys_witness :
  let raw : pydict :=
    <[K "s" := PInt 3]>
    (<[K "e" := PInt 7]>
    (<[K "badQuestion" := PBool false]>
    (<[K "noAnswer" := PBool true]> ∅))) in
  override_consensus (PDict raw) default_span = Ok raw.
Proof.
  intros raw.
  destruct (spans_have_the_declared_keys raw)
    as ((out & Hout & _ & Hsame) & _).
  rewrite Hout. f_equal. apply Hsame.
  apply (bool_decide_unpack _). vm_compute. exact I.
Defined.

(** ** The names of the configurations *)

(** X16: a name that is neither [combined-csv] nor [combined-json] is
    taken for [split] by all three of [_info], [_split_generators] and
    [_generate_examples]. *)
Theorem other_names_mean_split config_name :
  config_name <> "combined-csv" ->
  config_name <> "combined-json" ->
  info_features config_name = info_features "split"
  /\ (forall os manual_dir,
        _split_generators os config_name manual_dir
        = _split_generators os "split" manual_dir)
  /\ (forall csv_reader document,
        _generate_examples config_name csv_reader document
        = _generate_examples "split" csv_reader document).
Proof.
  intros Hcsv Hjson.
  apply String.eqb_neq in Hcsv. apply String.eqb_neq in Hjson.
  unfold info_features, _split_generators, _generate_examples.
  rewrite Hcsv, Hjson. auto.
Qed.

Lemma other_names_mean_split_witness :
  info_features "Split" = info_features "split"
  /\ (forall os manual_dir,
        _split_generators os "Split" manual_dir
        = _split_generators os "split" manual_dir)
  /\ (forall csv_reader document,
        _generate_examples "Split" csv_reader document
        = _generate_examples "split" csv_reader document).
Proof.
  apply (other_names_mean_split "Split"); discriminate.
Defined.

(** ** Where the partitions are *)

Lemma path_join_under (a b : string) :
  b <> EmptyString -> starts_with sep b = false ->
  exists rest, path_join a b = a ++ rest /\ rest <> EmptyString.
Proof.
  intros Hb Hstart. unfold path_join. rewrite Hstart.
  destruct (String.eqb a EmptyString || ends_with sep a).
  - exists b. auto.
  - exists (str1 sep ++ b). split; [reflexivity | discriminate].
Qed.

(** X17: whatever the configuration and the folder, when the folder exists
    [_split_generators] gives one partition or three, asks the disk for
    nothing but the folder, and every file it names lies below the
    folder: its path is the path of the folder followed by more. *)
Theorem partitions_lie_below_the_folder os config_name manual_dir :
  let root := abspath os (expanduser os manual_dir) in
  path_exists os root = true ->
  let r := _split_generators os config_name manual_dir in
  probed r = [root]
  /\ exists generators,
       outcome r = Ok generators
       /\ (length generators = 1 \/ length generators = 3)
       /\ Forall (fun g =>
                    exists rest,
                      filepath g = root ++ rest /\ rest <> EmptyString)
            generators.
Proof.
  intros root Hexists. unfold _split_generators. fold root.
  rewrite Hexists. simpl. split; [reflexivity|].
  eexists. split; [reflexivity|].
  destruct (String.eqb config_name "combined-csv");
    [|destruct (String.eqb config_name "combined-json")].
  - split; [by left|]. repeat constructor. by apply path_join_under.
  - split; [by left|]. repeat constructor. by apply path_join_under.
  - split; [by right|].
    assert (Hfile : forall file,
              file <> EmptyString -> starts_with sep file = false ->
              exists rest,
                path_join (path_join root "split_data") file = root ++ rest
                /\ rest <> EmptyString).
    { intros file Hne Hstart.
      destruct (path_join_under root "split_data") as (mid & -> & Hmid);
        [done | done |].
      destruct (path_join_under (root ++ mid) file Hne Hstart)
        as (rest & -> & Hrest).
      exists (mid ++ rest). rewrite append_assoc. split; [reflexivity|].
      destruct mid; [done | discriminate]. }
    repeat constructor; by apply Hfile.
Qed.

Lemma partitions_lie_below_the_folder_witness :
  let os := {| expanduser := fun p => p;
               abspath := fun p => p;
               path_exists := fun _ => true |} in
  let r := _split_generators os "combined-json" "/" in
  probed r = ["/"]
  /\ exists generators,
       outcome r = Ok generators
       /\ (length generators = 1 \/ length generators = 3)
       /\ Forall (fun g =>
                    exists rest,
                      filepath g = "/" ++ rest /\ rest <> EmptyString)
            generators.
Proof.
  intros os.
  apply (partitions_lie_below_the_folder os "combined-json" "/"). reflexivity.
Defined.

(** ** A document is read item by item *)

Lemma enumerate_yield_all (make : pyval -> result pyval) xs :
  forall recs start,
    for_each make xs = Ok recs ->
    enumerate_yield (fun _ => true) make start xs
    = Run (zip (seq start (length recs)) recs) None.
Proof.
  induction xs as [|x xs IH]; intros recs start Hall; simpl in Hall.
  - injection Hall as <-. reflexivity.
  - bind_inv Hall as rec Hrec. bind_inv Hall as recs' Hrecs.
    injection Hall as <-. simpl. rewrite Hrec, (IH _ _ Hrecs). reflexivity.
Qed.

(** X18: when [data] is a list, the read yields the records of its items
    in order with the ids 0, 1, 2, ..., up to the first item whose record
    cannot be built; it ends with the exception of that item, or without
    one when every item is built. *)
Theorem document_is_read_item_by_item csv_reader d items :
  getitem d "data" = Ok (PList items) ->
  let r := _generate_examples "combined-json" csv_reader d in
  (forall recs,
     for_each build_item items = Ok recs ->
     r = Run (zip (seq 0 (length recs)) recs) None)
  /\ (forall pre item post recs e,
        items = (pre ++ item :: post)%list ->
        for_each build_item pre = Ok recs ->
        build_item item = Raise e ->
        r = Run (zip (seq 0 (length recs)) recs) (Some e)).
Proof.
  intros Hdata.
  change (_generate_examples "combined-json" csv_reader d)
    with (read_document d).
  unfold read_document. rewrite Hdata. cbn [bind py_iter]. split.
  - intros recs Hall. by apply enumerate_yield_all.
  - intros pre item post recs e -> Hpre Hitem.
    destruct (enumerate_yield_stops (fun _ => true) build_item
                pre item post e 0 eq_refl Hitem) as [Hy Hf].
    rewrite (enumerate_yield_all _ _ _ 0 Hpre) in Hy, Hf. simpl in Hy, Hf.
    destruct (enumerate_yield _ _ 0 (pre ++ item :: post)) as [ys f].
    simpl in Hy, Hf. by subst.
Qed.

Lemma document_is_read_item_by_item_witness :
  let good :=
    PDict (<[K "storyId" := PStr "S1"]>
          (<[K "text" := PStr "story."]>
          (<[K "type" := PStr "train"]>
          (<[K "questions" := PList []]> ∅)))) in
  let bad := PDict (<[K "storyId" := PStr "S2"]> ∅) in
  _generate_examples "combined-json" []
    (PDict (<[K "data" := PList [good; bad; good]]> ∅))
  = Run [(0, good)] (Some (KeyError "questions")).
Proof.
  intros good bad.
  assert (Hdata : getitem (PDict (<[K "data" := PList [good; bad; good]]> ∅))
                    "data" = Ok (PList [good; bad; good]))
    by (vm_compute; reflexivity).
  apply (proj2 (document_is_read_item_by_item [] _ _ Hdata)
           [good] bad [good] [good] (KeyError "questions"));
    vm_compute; reflexivity.
Defined.

(** ** The three files of [split] *)

Lemma append_cancel (a b c : string) : a ++ b = a ++ c -> b = c.
Proof.
  induction a as [|x a IH]; [auto|].
  rewrite !append_cons. intros [= H]. auto.
Qed.

Lemma path_join_cancel (a b c : string) :
  starts_with sep b = false -> starts_with sep c = false ->
  path_join a b = path_join a c -> b = c.
Proof.
  intros Hb Hc. unfold path_join. rewrite Hb, Hc.
  destruct (String.eqb a EmptyString || ends_with sep a); intros H.
  - by apply append_cancel in H.
  - apply append_cancel in H. by injection H.
Qed.

(** X19: for [split] the three partitions are read from three different
    files, whatever the folder. *)
Theorem split_files_are_different os manual_dir generators :
  outcome (_split_generators os "split" manual_dir) = Ok generators ->
  length generators = 3
  /\ NoDup (map filepath generators)
  /\ map name generators = [TRAIN; TEST; VALIDATION]
  /\ map split generators = ["train"; "test"; "dev"].
Proof.
  unfold _split_generators.
  destruct (negb _); simpl; [discriminate|].
  intros [= <-]. simpl. split; [reflexivity|].
  split; [|split; reflexivity].
  repeat constructor; rewrite ?elem_of_cons, ?elem_of_nil;
    intros H; repeat destruct H as [H|H]; try done;
    apply path_join_cancel in H; done.
Qed.

Lemma split_files_are_different_witness :
  let os := {| expanduser := fun p => p;
               abspath := fun p => p;
               path_exists := fun _ => true |} in
  exists generators,
    outcome (_split_generators os "split" "/data/newsqa/") = Ok generators
    /\ length generators = 3
    /\ NoDup (map filepath generators).
Proof.
  intros os. eexists. split; [reflexivity|].
  destruct (split_files_are_different os "/data/newsqa/" _ eq_refl)
    as (Hlen & Hnodup & _).
  split; [exact Hlen | exact Hnodup].
Defined.
